(** * A coffee-order builder: shallow embedding of [main.py]

    The Python module defines an immutable value object [CoffeeOrder] and a
    fluent, mutable [CoffeeOrderBuilder]. Python objects live on a heap and
    are handled through references; the builder's syrup list is a separate
    mutable list object that the builder only refers to. The embedding keeps
    that structure: a heap of objects indexed by locations, and the methods
    as computations in a state-and-exception monad over the heap. *)

From Stdlib Require Import ZArith QArith Qabs PrimFloat FloatOps SpecFloat.
From stdpp Require Import gmap strings list pretty.

Set Warnings "-inexact-float".
Local Open Scope string_scope.
Local Open Scope list_scope.
Local Open Scope Z_scope.

(** ** Python values *)

Module Py.

(** The dynamically typed values that reach the type tests of [set_sugar]
    and [set_iced]. *)
Inductive value :=
| VNone
| VBool (b : bool)
| VInt (z : Z)
| VFloat (f : float)
| VStr (s : string).

(** A value for which [isinstance(v, int)] holds. [bool] is a subclass of
    [int]: [True] and [False] are instances of [int] worth 1 and 0, and
    they keep their own [str()]. *)
Inductive int :=
| Int (z : Z)
| Bool (b : bool).

Definition int_value (i : int) : Z :=
  match i with
  | Int z => z
  | Bool true => 1
  | Bool false => 0
  end.

(** [isinstance(v, int)], returning the instance. *)
Definition as_int (v : value) : option int :=
  match v with
  | VInt z => Some (Int z)
  | VBool b => Some (Bool b)
  | _ => None
  end.

(** [isinstance(v, bool)], returning the instance. *)
Definition as_bool (v : value) : option bool :=
  match v with
  | VBool b => Some b
  | _ => None
  end.

(** [str(i)], as an f-string field [{i}] renders it. *)
Definition str_int (i : int) : string :=
  match i with
  | Int z => pretty z
  | Bool true => "True"
  | Bool false => "False"
  end.

(** [sep.join(parts)]. *)
Definition join (sep : string) (parts : list string) : string :=
  String.concat sep parts.

(** [float(z)] for an [int] operand of a mixed [int * float] product:
    the nearest binary64 number, ties to even. *)
Definition float_of_int (z : Z) : float :=
  SF2Prim (binary_normalize prec emax z 0 false).

(** The text of an exception. Two messages of the module interpolate a
    [set], whose element order in [repr] is not fixed by the language; the
    parts of such a message are kept apart instead of rendered. *)
Inductive message :=
| Text (s : string)
| InvalidChoice (field : string) (given : string) (allowed : gset string).

Inductive exn :=
| ValueError (m : message)
| TypeError (m : message)
| KeyError (key : string)
(** the model's own fault: a location that holds no object of the class
    the method expects; no Python program reaches it *)
| BadReference.

End Py.

(** ** Exact value of a binary64 number *)

(** The rational a finite float denotes; [None] for infinities and NaN. *)
Definition float_to_Q (f : float) : option Q :=
  match Prim2SF f with
  | S754_zero _ => Some (0 # 1)%Q
  | S754_finite s m e =>
      let v := if (0 <=? e)%Z
               then inject_Z (Z.pos m * 2 ^ e)
               else (Z.pos m # Pos.pow 2 (Z.to_pos (- e)))%Q in
      Some (if s then Qopp v else v)
  | S754_infinity _ | S754_nan => None
  end.

(** [within tol f q]: the float [f] is finite and [|f - q| < tol]. *)
Definition within (tol : Q) (f : float) (q : Q) : Prop :=
  match float_to_Q f with
  | Some x => (Qabs (x - q) < tol)%Q
  | None => False
  end.

(** ** The heap and the monad of method bodies *)

Definition loc := positive.

(** [CoffeeOrder]: the eight slots of the class. [syrups] is a tuple, an
    immutable value, so the order holds the items themselves and no
    location. *)
Record CoffeeOrder := mkOrder {
  base : string;
  size : string;
  milk : string;
  syrups : list string;
  sugar : Py.int;
  iced : bool;
  price : float;
  description : string
}.

(** [CoffeeOrderBuilder]: the six attributes set by [__init__]. [_syrups]
    refers to a list object on the heap. *)
Record CoffeeOrderBuilder := mkBuilder {
  _base : option string;
  _size : option string;
  _milk : string;
  _syrups : loc;
  _sugar : Py.int;
  _iced : bool
}.

Inductive object :=
| PyList (items : list string)
| Builder (b : CoffeeOrderBuilder)
| Order (o : CoffeeOrder).

Abbreviation heap := (gmap loc object).

Inductive outcome (A : Type) :=
| Return (a : A)
| Raise (e : Py.exn).
Arguments Return {A} a.
Arguments Raise {A} e.

(** A method body: it reads and writes the heap and returns or raises. A
    raised exception keeps the heap as it was at the [raise]. *)
Definition M (A : Type) : Type := heap -> outcome A * heap.

Definition ret {A} (a : A) : M A := fun h => (Return a, h).

Definition raise {A} (e : Py.exn) : M A := fun h => (Raise e, h).

Definition bind {A B} (m : M A) (k : A -> M B) : M B :=
  fun h =>
    match m h with
    | (Return a, h') => k a h'
    | (Raise e, h') => (Raise e, h')
    end.

#[global] Instance M_ret : MRet M := @ret.
#[global] Instance M_bind : MBind M := fun A B k m => bind m k.

(** Object creation: a location the heap does not use yet. *)
Definition alloc (o : object) : M loc :=
  fun h => let l := fresh (dom h) in (Return l, <[l := o]> h).

Definition load_builder (self : loc) : M CoffeeOrderBuilder :=
  fun h =>
    match h !! self with
    | Some (Builder b) => (Return b, h)
    | _ => (Raise Py.BadReference, h)
    end.

Definition store_builder (self : loc) (b : CoffeeOrderBuilder) : M unit :=
  fun h => (Return tt, <[self := Builder b]> h).

Definition load_list (l : loc) : M (list string) :=
  fun h =>
    match h !! l with
    | Some (PyList items) => (Return items, h)
    | _ => (Raise Py.BadReference, h)
    end.

Definition store_list (l : loc) (items : list string) : M unit :=
  fun h => (Return tt, <[l := PyList items]> h).

(** Attribute assignments [self._x = v]. *)
Definition with_base (v : option string) (b : CoffeeOrderBuilder) :=
  mkBuilder v (_size b) (_milk b) (_syrups b) (_sugar b) (_iced b).
Definition with_size (v : option string) (b : CoffeeOrderBuilder) :=
  mkBuilder (_base b) v (_milk b) (_syrups b) (_sugar b) (_iced b).
Definition with_milk (v : string) (b : CoffeeOrderBuilder) :=
  mkBuilder (_base b) (_size b) v (_syrups b) (_sugar b) (_iced b).
Definition with_sugar (v : Py.int) (b : CoffeeOrderBuilder) :=
  mkBuilder (_base b) (_size b) (_milk b) (_syrups b) v (_iced b).
Definition with_iced (v : bool) (b : CoffeeOrderBuilder) :=
  mkBuilder (_base b) (_size b) (_milk b) (_syrups b) (_sugar b) v.

Definition setattr (self : loc) (f : CoffeeOrderBuilder -> CoffeeOrderBuilder)
  : M unit :=
  b ← load_builder self; store_builder self (f b).

(** ** [CoffeeOrder] *)

(** [_gen_description]: the list [parts] grows by [append] and is joined
    with single spaces at the end. *)
Definition _gen_description (self : CoffeeOrder) : string :=
  let parts := [size self; base self] in
  let parts :=
    if String.eqb (milk self) "none" then parts
    else (parts ++ ["with " +:+ milk self +:+ " milk"])%list in
  let parts :=
    match syrups self with
    | [] => parts
    | _ :: _ => (parts ++ ["+" +:+ Py.join ", " (syrups self)])%list
    end in
  let parts := if iced self then (parts ++ ["(iced)"])%list else parts in
  let parts :=
    if 0 <? Py.int_value (sugar self)
    then (parts ++ [Py.str_int (sugar self) +:+ " tsp sugar"])%list
    else parts in
  Py.join " " parts.

(** [CoffeeOrder.__init__]: the slots are assigned in order; an explicit
    description (anything but [None], the empty string included) is kept,
    otherwise the description is generated from the slots just assigned. *)
Definition CoffeeOrder__init__
  (base size milk : string) (syrups : list string) (sugar : Py.int)
  (iced : bool) (price : float) (description : option string) : CoffeeOrder :=
  let self := mkOrder base size milk syrups sugar iced price "" in
  match description with
  | Some d => mkOrder base size milk syrups sugar iced price d
  | None =>
      mkOrder base size milk syrups sugar iced price (_gen_description self)
  end.

(** ** [CoffeeOrderBuilder] *)

Definition BASE_PRICES : gmap string Z :=
  <["espresso" := 200]> (<["americano" := 250]> (<["latte" := 300]>
  (<["cappuccino" := 320]> ∅))).

Definition SIZE_MULTIPLIERS : gmap string float :=
  <["small" := 1.0%float]> (<["medium" := 1.2%float]>
  (<["large" := 1.4%float]> ∅)).

Definition MILK_PRICES : gmap string float :=
  <["none" := 0.0%float]> (<["whole" := 30.0%float]>
  (<["skim" := 30.0%float]> (<["oat" := 60.0%float]>
  (<["soy" := 50.0%float]> ∅)))).

Definition SYRUP_PRICE : float := 40.0%float.
Definition ICED_EXTRA : float := 0.2%float.
Definition MAX_SYRUPS : Z := 4.
Definition MAX_SUGAR : Z := 5.
Definition MIN_SUGAR : Z := 0.

Definition VALID_BASES : gset string := dom BASE_PRICES.
Definition VALID_SIZES : gset string := dom SIZE_MULTIPLIERS.
Definition VALID_MILKS : gset string := dom MILK_PRICES.

(** [d[key]]: [KeyError] on a missing key. *)
Definition getitem {V} (d : gmap string V) (key : string) : M V :=
  match d !! key with
  | Some v => ret v
  | None => raise (Py.KeyError key)
  end.

(** [CoffeeOrderBuilder()]: a new builder with a new, empty syrup list. *)
Definition CoffeeOrderBuilder__init__ : M loc :=
  l ← alloc (PyList []);
  alloc (Builder (mkBuilder None None "none" l (Py.Int 0) false)).

Definition set_base (self : loc) (base : string) : M loc :=
  if decide (base ∈ VALID_BASES) then
    setattr self (with_base (Some base)) ;; ret self
  else raise (Py.ValueError (Py.InvalidChoice "base" base VALID_BASES)).

Definition set_size (self : loc) (size : string) : M loc :=
  if decide (size ∈ VALID_SIZES) then
    setattr self (with_size (Some size)) ;; ret self
  else raise (Py.ValueError (Py.InvalidChoice "size" size VALID_SIZES)).

Definition set_milk (self : loc) (milk : string) : M loc :=
  if decide (milk ∈ VALID_MILKS) then
    setattr self (with_milk milk) ;; ret self
  else raise (Py.ValueError (Py.InvalidChoice "milk" milk VALID_MILKS)).

(** [add_syrup]: a name already in the list is ignored; a new name is
    appended to the list object in place unless the list is full. *)
Definition add_syrup (self : loc) (name : string) : M loc :=
  b ← load_builder self;
  items ← load_list (_syrups b);
  if decide (name ∈ items) then ret self
  else if MAX_SYRUPS <=? Z.of_nat (length items) then
    raise (Py.ValueError (Py.Text
      ("Cannot add more than " +:+ pretty MAX_SYRUPS +:+ " syrups")))
  else store_list (_syrups b) (items ++ [name])%list ;; ret self.

Definition set_sugar (self : loc) (teaspoons : Py.value) : M loc :=
  match Py.as_int teaspoons with
  | None => raise (Py.TypeError (Py.Text "Sugar must be an int"))
  | Some n =>
      if (Py.int_value n <? MIN_SUGAR) || (MAX_SUGAR <? Py.int_value n) then
        raise (Py.ValueError (Py.Text
          ("Sugar must be between " +:+ pretty MIN_SUGAR +:+ " and "
             +:+ pretty MAX_SUGAR)))
      else setattr self (with_sugar n) ;; ret self
  end.

Definition set_iced (self : loc) (iced : Py.value) : M loc :=
  match Py.as_bool iced with
  | None => raise (Py.TypeError (Py.Text "Iced must be a bool"))
  | Some flag => setattr self (with_iced flag) ;; ret self
  end.

(** [clear_extras]: the syrup list is emptied in place ([list.clear]), the
    builder keeps referring to the same list object. *)
Definition clear_extras (self : loc) : M loc :=
  setattr self (with_milk "none") ;;
  b ← load_builder self;
  load_list (_syrups b) ;;
  store_list (_syrups b) [] ;;
  setattr self (with_sugar (Py.Int 0)) ;;
  setattr self (with_iced false) ;;
  ret self.

(** [build]: the required fields are checked, the price computed left to
    right in binary64, and a new [CoffeeOrder] allocated from the builder's
    attributes with [tuple(self._syrups)], the items of the list at that
    moment. The builder object and its list are only read. *)
Definition build (self : loc) : M loc :=
  b ← load_builder self;
  match _base b with
  | None => raise (Py.ValueError (Py.Text "Base is required"))
  | Some the_base =>
      match _size b with
      | None => raise (Py.ValueError (Py.Text "Size is required"))
      | Some the_size =>
          base_price ← getitem BASE_PRICES the_base;
          size_mul ← getitem SIZE_MULTIPLIERS the_size;
          milk_price ← getitem MILK_PRICES (_milk b);
          items ← load_list (_syrups b);
          let syrups_price :=
            (Py.float_of_int (Z.of_nat (length items)) * SYRUP_PRICE)%float in
          let iced_price := if _iced b then ICED_EXTRA else 0.0%float in
          let total_price :=
            ((Py.float_of_int base_price * size_mul) + milk_price
             + syrups_price + iced_price)%float in
          alloc (Order (CoffeeOrder__init__ the_base the_size (_milk b) items
                          (_sugar b) (_iced b) total_price None))
      end
  end.

(** ** Call sequences on one builder *)

(** The calls a client makes on a builder. *)
Inductive call :=
| SetBase (base : string)
| SetSize (size : string)
| SetMilk (milk : string)
| AddSyrup (name : string)
| SetSugar (teaspoons : Py.value)
| SetIced (iced : Py.value)
| ClearExtras
| Build.

Definition perform (self : loc) (c : call) : M loc :=
  match c with
  | SetBase v => set_base self v
  | SetSize v => set_size self v
  | SetMilk v => set_milk self v
  | AddSyrup v => add_syrup self v
  | SetSugar v => set_sugar self v
  | SetIced v => set_iced self v
  | ClearExtras => clear_extras self
  | Build => build self
  end.

(** The heap after a call whose result the client drops and whose
    exception, if any, the client catches. *)
Definition attempt (self : loc) (h : heap) (c : call) : heap :=
  snd (perform self c h).

(** The heap after a sequence of such calls. *)
Definition run (self : loc) (cs : list call) (h : heap) : heap :=
  foldl (attempt self) h cs.

(** The builder object at [self] and the items of its syrup list. *)
Definition builder_at (h : heap) (self : loc) (b : CoffeeOrderBuilder)
  (items : list string) : Prop :=
  h !! self = Some (Builder b) ∧ h !! _syrups b = Some (PyList items).

(** ** The total price and the order built *)

(** The expression [build] evaluates for [total_price], given the three
    table entries, the number of syrups and the iced flag. *)
Definition total_price (base_price : Z) (size_mul milk_price : float)
  (count : nat) (iced : bool) : float :=
  ((Py.float_of_int base_price * size_mul) + milk_price
   + (Py.float_of_int (Z.of_nat count) * SYRUP_PRICE)
   + (if iced then ICED_EXTRA else 0.0))%float.

(** The order [build] constructs from a builder whose tables entries are
    known. *)
Definition built_order (b : CoffeeOrderBuilder) (items : list string)
  (the_base the_size : string) (base_price : Z) (size_mul milk_price : float)
  : CoffeeOrder :=
  CoffeeOrder__init__ the_base the_size (_milk b) items (_sugar b) (_iced b)
    (total_price base_price size_mul milk_price (length items) (_iced b))
    None.

(** ** The builder's invariant *)

Record well_formed (b : CoffeeOrderBuilder) (items : list string) : Prop := {
  wf_base : ∀ v, _base b = Some v → v ∈ VALID_BASES;
  wf_size : ∀ v, _size b = Some v → v ∈ VALID_SIZES;
  wf_milk : _milk b ∈ VALID_MILKS;
  wf_distinct : NoDup items;
  wf_count : (length items ≤ 4)%nat;
  wf_sugar : 0 ≤ Py.int_value (_sugar b) ≤ 5
}.

(** What a call may change: the builder object, the list it refers to, and
    locations that were unused. *)
Definition frames (h h' : heap) (self : loc) (b : CoffeeOrderBuilder) : Prop :=
  ∀ p x, p ≠ self → p ≠ _syrups b → h !! p = Some x → h' !! p = Some x.

(** ** The price as the specification writes it *)

(** The price tables and the formula in exact rational arithmetic. *)
Definition spec_base_price (base : string) : option Q :=
  if String.eqb base "espresso" then Some (200 # 1)%Q
  else if String.eqb base "americano" then Some (250 # 1)%Q
  else if String.eqb base "latte" then Some (300 # 1)%Q
  else if String.eqb base "cappuccino" then Some (320 # 1)%Q
  else None.

Definition spec_size_multiplier (size : string) : option Q :=
  if String.eqb size "small" then Some (10 # 10)%Q
  else if String.eqb size "medium" then Some (12 # 10)%Q
  else if String.eqb size "large" then Some (14 # 10)%Q
  else None.

Definition spec_milk_price (milk : string) : option Q :=
  if String.eqb milk "none" then Some (0 # 1)%Q
  else if String.eqb milk "whole" then Some (30 # 1)%Q
  else if String.eqb milk "skim" then Some (30 # 1)%Q
  else if String.eqb milk "oat" then Some (60 # 1)%Q
  else if String.eqb milk "soy" then Some (50 # 1)%Q
  else None.

Definition spec_price (base size milk : string) (count : nat) (iced : bool)
  : option Q :=
  match spec_base_price base, spec_size_multiplier size,
        spec_milk_price milk with
  | Some bp, Some sm, Some mp =>
      Some (bp * sm + mp + (40 # 1) * inject_Z (Z.of_nat count)
            + (if iced then 2 # 10 else 0 # 1))%Q
  | _, _, _ => None
  end.

Definition tolerance : Q := (1 # 10000)%Q.

(** ** The description as the specification writes it *)

(** The rendering rule in the specification's words: the text starts with
    size, a space and base; each further segment that is present is added
    after a single space, in the fixed order milk, syrups, iced, sugar. The
    syrups segment is a plus sign, the first syrup, and each later syrup
    after a comma and a space. *)
Definition spec_syrups_segment (syrups : list string) : string :=
  match syrups with
  | [] => ""
  | first :: later =>
      " +" +:+ first +:+ foldr (λ s rest, ", " +:+ s +:+ rest) "" later
  end.

Definition spec_description (size base milk : string) (syrups : list string)
  (sugar : Py.int) (iced : bool) : string :=
  (size +:+ " " +:+ base)
  +:+ (if decide (milk = "none") then "" else " with " +:+ milk +:+ " milk")
  +:+ spec_syrups_segment syrups
  +:+ (if iced then " (iced)" else "")
  +:+ (if decide (0 < Py.int_value sugar)
       then " " +:+ Py.str_int sugar +:+ " tsp sugar" else "").

(** ** Example heaps *)

(** The heap of the module's first self-check, before [build]: a new
    builder on an empty heap (the list at location 1, the builder at 2)
    after seven successful setter calls. *)
Definition example_calls : list call :=
  [SetBase "latte"; SetSize "medium"; SetMilk "oat"; AddSyrup "vanilla";
   AddSyrup "caramel"; SetSugar (Py.VInt 2); SetIced (Py.VBool true)].

Definition new_heap : heap := snd (CoffeeOrderBuilder__init__ ∅).

Definition example_heap : heap := run 2%positive example_calls new_heap.

Definition example_builder : CoffeeOrderBuilder :=
  mkBuilder (Some "latte") (Some "medium") "oat" 1%positive (Py.Int 2) true.

(** The order the first self-check builds, and the heap that holds it. *)
Definition example_order : CoffeeOrder :=
  built_order example_builder ["vanilla"; "caramel"] "latte" "medium" 300
    1.2 60.

Definition built_heap : heap := <[3%positive := Order example_order]> example_heap.

(** The heap of the module's sixth self-check: four syrups added. *)
Definition full_heap : heap :=
  run 2%positive
    [AddSyrup "vanilla"; AddSyrup "caramel"; AddSyrup "hazelnut";
     AddSyrup "pumpkin spice"] new_heap.

(** ** [CoffeeOrder.__str__] *)

(** The value [x] rounded to an integer, ties to even, for [x = num / den]
    with [0 ≤ num] and [0 < den]. *)
Definition round_half_even (num den : Z) : Z :=
  let q := num / den in
  let r := num mod den in
  match 2 * r ?= den with
  | Lt => q
  | Gt => q + 1
  | Eq => if Z.even q then q else q + 1
  end.

(** Two decimal digits, zero-padded, of a number below 100. *)
Definition two_digits (n : Z) : string :=
  if n <? 10 then "0" +:+ pretty n else pretty n.

(** [format(x, ".2f")]: the exact value of the float correctly rounded to
    two decimals, ties to even, in fixed notation with all its integer
    digits; the sign is kept, also on zero; [inf] and [nan] in lower case. *)
Definition format_2f (x : float) : string :=
  match Prim2SF x with
  | S754_nan => "nan"
  | S754_infinity s => (if s then "-" else "") +:+ "inf"
  | S754_zero s => (if s then "-" else "") +:+ "0.00"
  | S754_finite s m e =>
      let hundredths :=
        if (0 <=? e)%Z then Z.pos m * 2 ^ e * 100
        else round_half_even (Z.pos m * 100) (2 ^ (- e)) in
      (if s then "-" else "")
      +:+ pretty (hundredths / 100) +:+ "." +:+ two_digits (hundredths mod 100)
  end.

(** [CoffeeOrder.__str__]: the description when it is not empty, otherwise
    the fallback text with the price. *)
Definition CoffeeOrder__str__ (self : CoffeeOrder) : string :=
  match description self with
  | EmptyString => "Coffee order: " +:+ format_2f (price self) +:+ " ₽"
  | String _ _ => description self
  end.

(** ** The self-check of [__main__] *)

(** How the script can stop before its last line: an [assert] that fails,
    an exception no [except] clause catches, or a comparison with an
    exception text whose [set] part the model does not render. *)
Inductive failure :=
| AssertionError (msg : string)
| Uncaught (e : Py.exn)
| Unrendered.

(** A statement of the script. *)
Definition T (A : Type) : Type := heap -> (A + failure) * heap.

Definition T_ret {A} (a : A) : T A := fun h => (inl a, h).

Definition T_bind {A B} (m : T A) (k : A -> T B) : T B :=
  fun h =>
    match m h with
    | (inl a, h') => k a h'
    | (inr f, h') => (inr f, h')
    end.

#[global] Instance T_mret : MRet T := @T_ret.
#[global] Instance T_mbind : MBind T := fun A B k m => T_bind m k.

(** A method call, or a chain of them, outside any [try]. *)
Definition call_ {A} (m : M A) : T A :=
  fun h =>
    match m h with
    | (Return a, h') => (inl a, h')
    | (Raise e, h') => (inr (Uncaught e), h')
    end.

(** [assert cond, msg]. *)
Definition assert_ (cond : bool) (msg : string) : T unit :=
  fun h => if cond then (inl tt, h) else (inr (AssertionError msg), h).

(** [try: body except ValueError as e: handler(e)]: only a [ValueError]
    raised by the body enters the handler. *)
Definition try_except_ValueError (body : T unit)
  (handler : Py.message -> T unit) : T unit :=
  fun h =>
    match body h with
    | (inr (Uncaught (Py.ValueError m)), h') => handler m h'
    | r => r
    end.

(** [str(e) == s] for the text [m] of an exception: decided for a plain
    text, and for an interpolated one when [s] already differs on the part
    before the [set]. *)
Definition str_equals (m : Py.message) (s : string) : option bool :=
  match m with
  | Py.Text t => Some (String.eqb t s)
  | Py.InvalidChoice field given _ =>
      if String.prefix
           ("Invalid " +:+ field +:+ " '" +:+ given +:+ "', must be one of ")
           s
      then None else Some false
  end.

Definition assert_str_equals (m : Py.message) (s : string) : T unit :=
  match str_equals m s with
  | Some cond => assert_ cond ""
  | None => fun h => (inr Unrendered, h)
  end.

(** Reading the attributes of an order object. *)
Definition load_order (o : loc) : M CoffeeOrder :=
  fun h =>
    match h !! o with
    | Some (Order x) => (Return x, h)
    | _ => (Raise Py.BadReference, h)
    end.

(** [assert cond(o.attributes)], on the order object as it is now. *)
Definition assert_order (o : loc) (cond : CoffeeOrder -> bool) : T unit :=
  x ← call_ (load_order o); assert_ (cond x) "".

(** [isinstance(o, CoffeeOrder)]. *)
Definition isinstance_CoffeeOrder (o : loc) : T bool :=
  fun h =>
    (inl match h !! o with Some (Order _) => true | _ => false end, h).

(** [sub in s] on strings. *)
Fixpoint contains (sub s : string) : bool :=
  String.prefix sub s ||
  match s with
  | EmptyString => false
  | String _ rest => contains sub rest
  end.

(** [t.count(x)] on a tuple of strings. *)
Definition count (x : string) (t : list string) : nat :=
  length (filter (λ y, y = x) t).

Definition strings_eqb (a b : list string) : bool := bool_decide (a = b).

(** The eight scenarios of the [__main__] block, in order; the final
    [print] is the end of the script. *)
Definition self_check : T unit :=
  (* 1 *)
  builder ← call_ CoffeeOrderBuilder__init__;
  order1 ← call_ (r ← set_base builder "latte"; r ← set_size r "medium";
                  r ← set_milk r "oat"; r ← add_syrup r "vanilla";
                  r ← add_syrup r "caramel"; r ← set_sugar r (Py.VInt 2);
                  r ← set_iced r (Py.VBool true); build r);
  is_order ← isinstance_CoffeeOrder order1;
  assert_ is_order "";;
  assert_order order1 (λ o, 0 <? price o)%float;;
  assert_order order1 (λ o, String.eqb (base o) "latte");;
  assert_order order1 (λ o, String.eqb (size o) "medium");;
  assert_order order1 (λ o, String.eqb (milk o) "oat");;
  assert_order order1 (λ o, strings_eqb (syrups o) ["vanilla"; "caramel"]);;
  assert_order order1 (λ o, Py.int_value (sugar o) =? 2);;
  assert_order order1 (λ o, iced o);;
  assert_order order1 (λ o, contains "vanilla" (description o));;
  assert_order order1 (λ o, contains "oat milk" (description o));;
  assert_order order1 (λ o, contains "iced" (description o));;
  assert_order order1 (λ o, contains "2 tsp sugar" (description o));;
  (* 2 *)
  order2 ← call_ (r ← set_base builder "espresso"; r ← set_size r "small";
                  r ← clear_extras r; build r);
  assert_order order2 (λ o, String.eqb (base o) "espresso");;
  assert_order order2 (λ o, String.eqb (size o) "small");;
  assert_order order2 (λ o, String.eqb (milk o) "none");;
  assert_order order2 (λ o, strings_eqb (syrups o) []);;
  assert_order order2 (λ o, Py.int_value (sugar o) =? 0);;
  assert_order order2 (λ o, negb (iced o));;
  assert_order order2 (λ o, 0 <? price o)%float;;
  o1 ← call_ (load_order order1);
  assert_order order2 (λ o, negb (price o =? price o1)%float);;
  assert_order order2 (λ o, String.eqb (CoffeeOrder__str__ o) (description o));;
  (* 3 *)
  builder3 ← call_ CoffeeOrderBuilder__init__;
  call_ (set_size builder3 "small");;
  try_except_ValueError
    (call_ (build builder3);;
     assert_ false "Должен быть ValueError из-за отсутствия base")
    (λ e, assert_str_equals e "Base is required");;
  (* 4 *)
  builder4 ← call_ CoffeeOrderBuilder__init__;
  call_ (set_base builder4 "americano");;
  try_except_ValueError
    (call_ (build builder4);;
     assert_ false "Должен быть ValueError из-за отсутствия size")
    (λ e, assert_str_equals e "Size is required");;
  (* 5 *)
  builder5 ← call_ CoffeeOrderBuilder__init__;
  call_ (r ← set_base builder5 "latte"; set_size r "large");;
  try_except_ValueError
    (call_ (set_sugar builder5 (Py.VInt 6));;
     assert_ false "Должен быть ValueError из-за сахара > 5")
    (λ _, mret tt);;
  (* 6 *)
  builder6 ← call_ CoffeeOrderBuilder__init__;
  call_ (r ← set_base builder6 "latte"; set_size r "medium");;
  call_ (add_syrup builder6 "vanilla");;
  call_ (add_syrup builder6 "caramel");;
  call_ (add_syrup builder6 "hazelnut");;
  call_ (add_syrup builder6 "pumpkin spice");;
  try_except_ValueError
    (call_ (add_syrup builder6 "extra syrup");;
     assert_ false "Должен быть ValueError из-за количества сиропов больше 4")
    (λ _, mret tt);;
  (* 7 *)
  builder7 ← call_ CoffeeOrderBuilder__init__;
  call_ (r ← set_base builder7 "latte"; r ← set_size r "medium";
         clear_extras r);;
  call_ (r ← add_syrup builder7 "vanilla"; r ← add_syrup r "vanilla";
         add_syrup r "caramel");;
  order7 ← call_ (build builder7);
  assert_order order7 (λ o, Nat.eqb (count "vanilla" (syrups o)) 1);;
  latte ← call_ (getitem BASE_PRICES "latte");
  medium ← call_ (getitem SIZE_MULTIPLIERS "medium");
  no_milk ← call_ (getitem MILK_PRICES "none");
  let price_with_2_syrups :=
    (SYRUP_PRICE * Py.float_of_int 2 + Py.float_of_int latte * medium
     + no_milk + 0.0)%float in
  assert_order order7
    (λ o, abs (price o - price_with_2_syrups) <? 0.0001)%float;;
  (* 8 *)
  builder8 ← call_ CoffeeOrderBuilder__init__;
  call_ (r ← set_base builder8 "espresso"; r ← set_size r "small";
         set_iced r (Py.VBool true));;
  order8 ← call_ (build builder8);
  espresso ← call_ (getitem BASE_PRICES "espresso");
  small ← call_ (getitem SIZE_MULTIPLIERS "small");
  let base_price := (Py.float_of_int espresso * small)%float in
  no_milk ← call_ (getitem MILK_PRICES "none");
  let expected_price := (base_price + no_milk + ICED_EXTRA)%float in
  assert_order order8 (λ o, abs (price o - expected_price) <? 0.0001)%float.

(** ** Sequences of syrup names *)

(** The names of [names] that are not in [seen] and not earlier in
    [names], in their order: the first occurrence of each new name. *)
Fixpoint first_occurrences (seen names : list string) : list string :=
  match names with
  | [] => []
  | x :: rest =>
      if decide (x ∈ seen) then first_occurrences seen rest
      else x :: first_occurrences (x :: seen) rest
  end.

(** What one [add_syrup] makes of the items of the list. *)
Definition add_name (items : list string) (name : string) : list string :=
  if decide (name ∈ items) then items
  else if 4 <=? Z.of_nat (length items) then items
  else items ++ [name].

(** ** The builder as a state machine *)

(** What a call makes of the builder's attributes and of the items of its
    list, whether it returns or raises. *)
Definition step (c : call) (b : CoffeeOrderBuilder) (items : list string)
  : CoffeeOrderBuilder * list string :=
  match c with
  | SetBase v =>
      if decide (v ∈ VALID_BASES) then (with_base (Some v) b, items)
      else (b, items)
  | SetSize v =>
      if decide (v ∈ VALID_SIZES) then (with_size (Some v) b, items)
      else (b, items)
  | SetMilk v =>
      if decide (v ∈ VALID_MILKS) then (with_milk v b, items) else (b, items)
  | AddSyrup v => (b, add_name items v)
  | SetSugar v =>
      match Py.as_int v with
      | Some n =>
          if (Py.int_value n <? 0) || (5 <? Py.int_value n) then (b, items)
          else (with_sugar n b, items)
      | None => (b, items)
      end
  | SetIced v =>
      match Py.as_bool v with
      | Some flag => (with_iced flag b, items)
      | None => (b, items)
      end
  | ClearExtras =>
      (mkBuilder (_base b) (_size b) "none" (_syrups b) (Py.Int 0) false, [])
  | Build => (b, items)
  end.

(** The attribute a setter call assigns, or the list for [add_syrup]; none
    for [clear_extras], which resets several, and for [build]. *)
Definition attribute (c : call) : option string :=
  match c with
  | SetBase _ => Some "_base"
  | SetSize _ => Some "_size"
  | SetMilk _ => Some "_milk"
  | AddSyrup _ => Some "_syrups"
  | SetSugar _ => Some "_sugar"
  | SetIced _ => Some "_iced"
  | ClearExtras | Build => None
  end.

(** The attributes and items after a sequence of calls. *)
Definition steps (cs : list call) (b : CoffeeOrderBuilder)
  (items : list string) : CoffeeOrderBuilder * list string :=
  foldl (λ st c, step c (fst st) (snd st)) (b, items) cs.

(** Calls on two builders, interleaved: the flag says whether the call
    goes to the first. *)
Definition run_two (first second : loc) (cs : list (bool * call)) (h : heap)
  : heap :=
  foldl (λ h' (p : bool * call),
           attempt (if fst p then first else second) h' (snd p)) h cs.

(** The calls of an interleaving that go to one of the two builders. *)
Definition calls_of (to_first : bool) (cs : list (bool * call)) : list call :=
  snd <$> filter (λ p : bool * call, fst p = to_first) cs.

(** * Lemmas *)

(** ** What each method does to a heap that holds the builder *)

Ltac unfold_M :=
  unfold setattr, load_builder, store_builder, load_list, store_list, alloc,
    getitem, mbind, M_bind, bind, ret, raise.

Section methods.
Context (h : heap) (self : loc) (b : CoffeeOrderBuilder) (items : list string).
Context (Hat : builder_at h self b items).

Lemma builder_at_distinct : _syrups b ≠ self.
Proof. destruct Hat as [Hb Hl]. intros E. rewrite E in Hl. congruence. Qed.

Lemma setattr_spec f :
  setattr self f h = (Return tt, <[self := Builder (f b)]> h).
Proof. destruct Hat as [Hb _]. unfold_M. by rewrite Hb. Qed.

Lemma set_base_spec v :
  set_base self v h =
    if decide (v ∈ VALID_BASES)
    then (Return self, <[self := Builder (with_base (Some v) b)]> h)
    else (Raise (Py.ValueError (Py.InvalidChoice "base" v VALID_BASES)), h).
Proof.
  unfold set_base. case_decide; [|done].
  unfold mbind, M_bind, bind. by rewrite setattr_spec.
Qed.

Lemma set_size_spec v :
  set_size self v h =
    if decide (v ∈ VALID_SIZES)
    then (Return self, <[self := Builder (with_size (Some v) b)]> h)
    else (Raise (Py.ValueError (Py.InvalidChoice "size" v VALID_SIZES)), h).
Proof.
  unfold set_size. case_decide; [|done].
  unfold mbind, M_bind, bind. by rewrite setattr_spec.
Qed.

Lemma set_milk_spec v :
  set_milk self v h =
    if decide (v ∈ VALID_MILKS)
    then (Return self, <[self := Builder (with_milk v b)]> h)
    else (Raise (Py.ValueError (Py.InvalidChoice "milk" v VALID_MILKS)), h).
Proof.
  unfold set_milk. case_decide; [|done].
  unfold mbind, M_bind, bind. by rewrite setattr_spec.
Qed.

Lemma add_syrup_spec name :
  add_syrup self name h =
    if decide (name ∈ items) then (Return self, h)
    else if 4 <=? Z.of_nat (length items)
    then (Raise (Py.ValueError (Py.Text "Cannot add more than 4 syrups")), h)
    else (Return self, <[_syrups b := PyList (items ++ [name])]> h).
Proof.
  destruct Hat as [Hb Hl]. unfold add_syrup. unfold_M. rewrite Hb, Hl.
  case_decide; [done|]. unfold MAX_SYRUPS.
  by destruct (4 <=? Z.of_nat (length items)).
Qed.

Lemma set_sugar_spec v :
  set_sugar self v h =
    match Py.as_int v with
    | None => (Raise (Py.TypeError (Py.Text "Sugar must be an int")), h)
    | Some n =>
        if (Py.int_value n <? 0) || (5 <? Py.int_value n)
        then (Raise (Py.ValueError (Py.Text "Sugar must be between 0 and 5")),
              h)
        else (Return self, <[self := Builder (with_sugar n b)]> h)
    end.
Proof.
  unfold set_sugar. destruct (Py.as_int v) as [n|]; [|done].
  unfold MIN_SUGAR, MAX_SUGAR.
  destruct ((Py.int_value n <? 0) || (5 <? Py.int_value n)); [done|].
  unfold mbind, M_bind, bind. by rewrite setattr_spec.
Qed.

Lemma set_iced_spec v :
  set_iced self v h =
    match Py.as_bool v with
    | None => (Raise (Py.TypeError (Py.Text "Iced must be a bool")), h)
    | Some flag => (Return self, <[self := Builder (with_iced flag b)]> h)
    end.
Proof.
  unfold set_iced. destruct (Py.as_bool v); [|done].
  unfold mbind, M_bind, bind. by rewrite setattr_spec.
Qed.

Lemma clear_extras_spec :
  clear_extras self h =
    (Return self,
     <[self := Builder (mkBuilder (_base b) (_size b) "none" (_syrups b)
                          (Py.Int 0) false)]>
       (<[_syrups b := PyList []]> h)).
Proof.
  pose proof builder_at_distinct as Hne. destruct Hat as [Hb Hl].
  unfold clear_extras. unfold_M. rewrite Hb. simplify_map_eq. f_equal.
  apply map_eq. intros p.
  destruct (decide (p = self)) as [->|Hp]; simplify_map_eq; [done|].
  destruct (decide (p = _syrups b)) as [->|Hq]; by simplify_map_eq.
Qed.

End methods.

(** ** [build] *)

Section build.
Context (h : heap) (self : loc) (b : CoffeeOrderBuilder) (items : list string).
Context (Hat : builder_at h self b items).

Lemma build_no_base :
  _base b = None →
  build self h = (Raise (Py.ValueError (Py.Text "Base is required")), h).
Proof.
  intros E. destruct Hat as [Hb _]. unfold build. unfold_M.
  by rewrite Hb, E.
Qed.

Lemma build_no_size the_base :
  _base b = Some the_base → _size b = None →
  build self h = (Raise (Py.ValueError (Py.Text "Size is required")), h).
Proof.
  intros E1 E2. destruct Hat as [Hb _]. unfold build. unfold_M.
  by rewrite Hb, E1, E2.
Qed.

Lemma build_spec the_base the_size base_price size_mul milk_price :
  _base b = Some the_base → _size b = Some the_size →
  BASE_PRICES !! the_base = Some base_price →
  SIZE_MULTIPLIERS !! the_size = Some size_mul →
  MILK_PRICES !! _milk b = Some milk_price →
  build self h =
    (Return (fresh (dom h)),
     <[fresh (dom h) :=
         Order (built_order b items the_base the_size base_price size_mul
                  milk_price)]> h).
Proof.
  intros E1 E2 E3 E4 E5. destruct Hat as [Hb Hl]. unfold build. unfold_M.
  by rewrite Hb, E1, E2, E3, E4, E5, Hl.
Qed.

End build.

Lemma fresh_loc_unused (h : heap) : h !! fresh (dom h) = None.
Proof. apply not_elem_of_dom, is_fresh. Qed.

Lemma valid_base_cases v :
  v ∈ VALID_BASES →
  v = "espresso" ∨ v = "americano" ∨ v = "latte" ∨ v = "cappuccino".
Proof.
  unfold VALID_BASES, BASE_PRICES. rewrite !dom_insert_L, dom_empty_L.
  set_unfold. tauto.
Qed.

Lemma valid_size_cases v :
  v ∈ VALID_SIZES → v = "small" ∨ v = "medium" ∨ v = "large".
Proof.
  unfold VALID_SIZES, SIZE_MULTIPLIERS. rewrite !dom_insert_L, dom_empty_L.
  set_unfold. tauto.
Qed.

Lemma valid_milk_cases v :
  v ∈ VALID_MILKS →
  v = "none" ∨ v = "whole" ∨ v = "skim" ∨ v = "oat" ∨ v = "soy".
Proof.
  unfold VALID_MILKS, MILK_PRICES. rewrite !dom_insert_L, dom_empty_L.
  set_unfold. tauto.
Qed.

Lemma valid_milk_none : "none" ∈ VALID_MILKS.
Proof. by vm_compute. Qed.

(** Over the tables' keys and at most four syrups, the binary64 total is
    within the tolerance of the exact formula. *)
Lemma total_price_close the_base the_size the_milk count iced :
  the_base ∈ VALID_BASES → the_size ∈ VALID_SIZES → the_milk ∈ VALID_MILKS →
  (count ≤ 4)%nat →
  match BASE_PRICES !! the_base, SIZE_MULTIPLIERS !! the_size,
        MILK_PRICES !! the_milk, spec_price the_base the_size the_milk count iced
  with
  | Some bp, Some sm, Some mp, Some q =>
      within tolerance (total_price bp sm mp count iced) q
  | _, _, _, _ => False
  end.
Proof.
  intros Hb Hs Hm Hc.
  apply valid_base_cases in Hb. apply valid_size_cases in Hs.
  apply valid_milk_cases in Hm.
  assert (count = 0 ∨ count = 1 ∨ count = 2 ∨ count = 3 ∨ count = 4)%nat
    as Hn by lia.
  destruct iced;
    destruct Hb as [->|[->|[->| ->]]];
    destruct Hs as [->|[->| ->]];
    destruct Hm as [->|[->|[->|[->| ->]]]];
    destruct Hn as [->|[->|[->|[->| ->]]]];
    vm_compute; reflexivity.
Qed.

(** ** The invariant is kept and other objects are framed *)

Lemma frames_refl h self b : frames h h self b.
Proof. by intros p x _ _ ?. Qed.

Lemma builder_at_store h self b items b' :
  builder_at h self b items → _syrups b' = _syrups b →
  builder_at (<[self := Builder b']> h) self b' items.
Proof.
  intros Hat E. pose proof (builder_at_distinct _ _ _ _ Hat) as Hne.
  destruct Hat as [Hb Hl]. split; [by simplify_map_eq|].
  rewrite E. by simplify_map_eq.
Qed.

Lemma builder_at_store_list h self b items items' :
  builder_at h self b items →
  builder_at (<[_syrups b := PyList items']> h) self b items'.
Proof.
  intros Hat. pose proof (builder_at_distinct _ _ _ _ Hat) as Hne.
  destruct Hat as [Hb Hl]. split; by simplify_map_eq.
Qed.

Lemma builder_at_alloc h self b items x :
  builder_at h self b items →
  builder_at (<[fresh (dom h) := x]> h) self b items.
Proof.
  intros [Hb Hl]. pose proof (fresh_loc_unused h) as Hf.
  split; rewrite lookup_insert_ne; congruence.
Qed.

Lemma frames_store h self b x : frames h (<[self := x]> h) self b.
Proof. intros p y Hp _ E. by rewrite lookup_insert_ne. Qed.

Lemma frames_store_list h self b x : frames h (<[_syrups b := x]> h) self b.
Proof. intros p y _ Hp E. by rewrite lookup_insert_ne. Qed.

Lemma frames_alloc h self b x : frames h (<[fresh (dom h) := x]> h) self b.
Proof.
  intros p y _ _ E. pose proof (fresh_loc_unused h) as Hf.
  rewrite lookup_insert_ne; congruence.
Qed.

(** [build] either raises and leaves the heap alone, or allocates one order
    built from the builder's attributes and the list's items. *)
Lemma build_cases h self b items :
  builder_at h self b items →
  (∃ e, build self h = (Raise e, h)) ∨
  (∃ the_base the_size bp sm mp,
     _base b = Some the_base ∧ _size b = Some the_size ∧
     BASE_PRICES !! the_base = Some bp ∧
     SIZE_MULTIPLIERS !! the_size = Some sm ∧
     MILK_PRICES !! _milk b = Some mp ∧
     build self h =
       (Return (fresh (dom h)),
        <[fresh (dom h) :=
            Order (built_order b items the_base the_size bp sm mp)]> h)).
Proof.
  intros Hat.
  destruct (_base b) as [x|] eqn:E1;
    [|left; eexists; by eapply build_no_base].
  destruct (_size b) as [y|] eqn:E2;
    [|left; eexists; by eapply build_no_size].
  destruct (BASE_PRICES !! x) as [bp|] eqn:E3; cycle 1.
  { left. exists (Py.KeyError x). destruct Hat as [Hb Hl].
    unfold build. unfold_M. by rewrite Hb, E1, E2, E3. }
  destruct (SIZE_MULTIPLIERS !! y) as [sm|] eqn:E4; cycle 1.
  { left. exists (Py.KeyError y). destruct Hat as [Hb Hl].
    unfold build. unfold_M. by rewrite Hb, E1, E2, E3, E4. }
  destruct (MILK_PRICES !! _milk b) as [mp|] eqn:E5; cycle 1.
  { left. exists (Py.KeyError (_milk b)). destruct Hat as [Hb Hl].
    unfold build. unfold_M. by rewrite Hb, E1, E2, E3, E4, E5. }
  right. exists x, y, bp, sm, mp. repeat split; try done.
  by eapply build_spec.
Qed.

(** One call, caught or not: the builder is still there, refers to the same
    list object, keeps its invariant, and nothing else that existed moved. *)
Lemma attempt_spec h self b items c :
  builder_at h self b items →
  ∃ b' items',
    builder_at (attempt self h c) self b' items' ∧
    _syrups b' = _syrups b ∧
    frames h (attempt self h c) self b ∧
    (well_formed b items → well_formed b' items').
Proof.
  intros Hat. unfold attempt.
  destruct c as [v|v|v|v|v|v| |]; simpl.
  - rewrite (set_base_spec _ _ _ _ Hat). case_decide; simpl.
    + exists (with_base (Some v) b), items.
      split_and!; [by eapply builder_at_store|done|apply frames_store|].
      intros [? ? ? ? ? ?]. split; simpl; try done. by intros ? [= <-].
    + exists b, items. split_and!; try done. apply frames_refl.
  - rewrite (set_size_spec _ _ _ _ Hat). case_decide; simpl.
    + exists (with_size (Some v) b), items.
      split_and!; [by eapply builder_at_store|done|apply frames_store|].
      intros [? ? ? ? ? ?]. split; simpl; try done. by intros ? [= <-].
    + exists b, items. split_and!; try done. apply frames_refl.
  - rewrite (set_milk_spec _ _ _ _ Hat). case_decide; simpl.
    + exists (with_milk v b), items.
      split_and!; [by eapply builder_at_store|done|apply frames_store|].
      intros [? ? ? ? ? ?]. by split.
    + exists b, items. split_and!; try done. apply frames_refl.
  - rewrite (add_syrup_spec _ _ _ _ Hat). case_decide; simpl.
    { exists b, items. split_and!; try done. apply frames_refl. }
    destruct (4 <=? Z.of_nat (length items)) eqn:E; simpl.
    { exists b, items. split_and!; try done. apply frames_refl. }
    exists b, (items ++ [v]).
    split_and!; [by eapply builder_at_store_list|done|
                  apply frames_store_list|].
    intros [? ? ? ? ? ?]. split; try done.
    + apply NoDup_app. split_and!; [done| |apply NoDup_singleton].
      intros x Hx ->%list_elem_of_singleton. done.
    + rewrite length_app. simpl. lia.
  - rewrite (set_sugar_spec _ _ _ _ Hat).
    destruct (Py.as_int v) as [n|]; simpl; cycle 1.
    { exists b, items. split_and!; try done. apply frames_refl. }
    destruct ((Py.int_value n <? 0) || (5 <? Py.int_value n)) eqn:E; simpl.
    { exists b, items. split_and!; try done. apply frames_refl. }
    exists (with_sugar n b), items.
    split_and!; [by eapply builder_at_store|done|apply frames_store|].
    intros [? ? ? ? ? ?]. split; simpl; try done. lia.
  - rewrite (set_iced_spec _ _ _ _ Hat).
    destruct (Py.as_bool v) as [f|]; simpl; cycle 1.
    { exists b, items. split_and!; try done. apply frames_refl. }
    exists (with_iced f b), items.
    split_and!; [by eapply builder_at_store|done|apply frames_store|].
    intros [? ? ? ? ? ?]. by split.
  - rewrite (clear_extras_spec _ _ _ _ Hat). simpl.
    eexists _, []. split_and!.
    + eapply builder_at_store; [by eapply builder_at_store_list|done].
    + done.
    + intros p x Hp Hq E. by rewrite !lookup_insert_ne.
    + intros [? ? ? ? ? ?]. split; simpl; try done;
        first [apply valid_milk_none | apply NoDup_nil_2 | lia].
  - destruct (build_cases _ _ _ _ Hat) as [[e ->]|(x&y&bp&sm&mp&_&_&_&_&_& ->)];
      simpl.
    + exists b, items. split_and!; try done. apply frames_refl.
    + exists b, items.
      split_and!; [by apply builder_at_alloc|done|apply frames_alloc|done].
Qed.

(** The same over a whole sequence of calls. *)
Lemma run_spec self cs : ∀ h b items,
  builder_at h self b items →
  ∃ b' items',
    builder_at (run self cs h) self b' items' ∧
    _syrups b' = _syrups b ∧
    frames h (run self cs h) self b ∧
    (well_formed b items → well_formed b' items').
Proof.
  induction cs as [|c cs IH]; intros h b items Hat; simpl.
  { exists b, items. split_and!; try done. apply frames_refl. }
  destruct (attempt_spec h self b items c Hat) as (b1&l1&Hat1&E1&F1&W1).
  destruct (IH _ _ _ Hat1) as (b2&l2&Hat2&E2&F2&W2).
  exists b2, l2. split_and!; [done|congruence| |tauto].
  intros p x Hp Hq Hx. apply F2; [done|congruence|]. by apply F1.
Qed.

(** A new builder: base and size unset, the defaults, and an empty list of
    its own; the objects already on the heap are untouched. *)
Lemma new_builder_spec (h0 : heap) :
  ∃ self l h1,
    CoffeeOrderBuilder__init__ h0 = (Return self, h1) ∧
    builder_at h1 self (mkBuilder None None "none" l (Py.Int 0) false) [] ∧
    (∀ p x, h0 !! p = Some x → h1 !! p = Some x).
Proof.
  unfold CoffeeOrderBuilder__init__. unfold_M.
  set (l := fresh (dom h0)). set (h' := <[l := PyList []]> h0).
  exists (fresh (dom h')), l,
    (<[fresh (dom h') :=
         Builder (mkBuilder None None "none" l (Py.Int 0) false)]> h').
  pose proof (fresh_loc_unused h0) as F0.
  pose proof (fresh_loc_unused h') as F1.
  assert (fresh (dom h') ≠ l) as Hne.
  { intros E. rewrite E in F1. unfold h' in F1. by simplify_map_eq. }
  split_and!; [done|split; simpl|].
  - by simplify_map_eq.
  - unfold h'. by simplify_map_eq.
  - intros p x Hx.
    assert (p ≠ l) by (intros ->; fold l in F0; congruence).
    assert (h' !! p = Some x) as Hx' by (unfold h'; by simplify_map_eq).
    rewrite lookup_insert_ne; [done|]. intros E; congruence.
Qed.

Lemma new_builder_well_formed l :
  well_formed (mkBuilder None None "none" l (Py.Int 0) false) [].
Proof.
  split; simpl; try done;
    first [apply valid_milk_none | apply NoDup_nil_2 | lia].
Qed.

Lemma builder_at_unique h self b items b' items' :
  builder_at h self b items → builder_at h self b' items' →
  b' = b ∧ items' = items.
Proof.
  intros [Hb Hl] [Hb' Hl']. rewrite Hb in Hb'. injection Hb' as <-.
  rewrite Hl in Hl'. by injection Hl' as <-.
Qed.

(** Every state a builder reaches from its creation, through calls that
    succeed or fail, satisfies the invariant. *)
Lemma reachable_well_formed h0 self h1 cs b items :
  CoffeeOrderBuilder__init__ h0 = (Return self, h1) →
  builder_at (run self cs h1) self b items →
  well_formed b items.
Proof.
  intros Hnew Hat.
  destruct (new_builder_spec h0) as (self'&l&h1'&E&Hat0&_).
  rewrite Hnew in E. injection E as <- <-.
  destruct (run_spec self cs _ _ _ Hat0) as (b'&items'&Hat'&_&_&W).
  destruct (builder_at_unique _ _ _ _ _ _ Hat' Hat) as [-> ->].
  apply W, new_builder_well_formed.
Qed.

Lemma reachable_builder_at h0 self h1 cs :
  CoffeeOrderBuilder__init__ h0 = (Return self, h1) →
  ∃ b items, builder_at (run self cs h1) self b items.
Proof.
  intros Hnew.
  destruct (new_builder_spec h0) as (self'&l&h1'&E&Hat0&_).
  rewrite Hnew in E. injection E as <- <-.
  destruct (run_spec self cs _ _ _ Hat0) as (b'&items'&Hat'&_).
  by exists b', items'.
Qed.

(** Under the invariant, [build] with base and size set finds its three
    table entries, and the total is close to the exact formula. *)
Lemma build_price_well_formed b items the_base the_size :
  well_formed b items →
  _base b = Some the_base → _size b = Some the_size →
  ∃ bp sm mp q,
    BASE_PRICES !! the_base = Some bp ∧
    SIZE_MULTIPLIERS !! the_size = Some sm ∧
    MILK_PRICES !! _milk b = Some mp ∧
    spec_price the_base the_size (_milk b) (length items) (_iced b) = Some q ∧
    within tolerance (total_price bp sm mp (length items) (_iced b)) q.
Proof.
  intros [Wb Ws Wm _ Wc _] E1 E2.
  pose proof (total_price_close the_base the_size (_milk b) (length items)
                (_iced b) (Wb _ E1) (Ws _ E2) Wm Wc) as H.
  destruct (BASE_PRICES !! the_base) as [bp|]; [|done].
  destruct (SIZE_MULTIPLIERS !! the_size) as [sm|]; [|done].
  destruct (MILK_PRICES !! _milk b) as [mp|]; [|done].
  destruct (spec_price _ _ _ _ _) as [q|]; [|done].
  by exists bp, sm, mp, q.
Qed.

(** ** The example heaps *)

Lemma new_heap_init :
  CoffeeOrderBuilder__init__ ∅ = (Return 2%positive, new_heap).
Proof. vm_compute. reflexivity. Defined.

Lemma new_heap_builder :
  builder_at new_heap 2%positive
    (mkBuilder None None "none" 1%positive (Py.Int 0) false) [].
Proof. split; vm_compute; reflexivity. Defined.

Lemma example_heap_builder :
  builder_at example_heap 2%positive example_builder ["vanilla"; "caramel"].
Proof. split; vm_compute; reflexivity. Defined.

(** * The claims *)

(** C1: in every state a builder reaches with base and size set, [build]
    returns a new order whose binary64 price is the total computed from the
    tables and lies within 1e-4 of the exact value
    basePrice * sizeMultiplier + milkPrice + 40 * syrupCount + (0.2 if iced),
    taken over the tables espresso=200, americano=250, latte=300,
    cappuccino=320; small=1.0, medium=1.2, large=1.4; none=0, whole=30,
    skim=30, oat=60, soy=50. *)
Theorem build_price_formula h0 self h1 cs b items the_base the_size :
  CoffeeOrderBuilder__init__ h0 = (Return self, h1) →
  builder_at (run self cs h1) self b items →
  _base b = Some the_base → _size b = Some the_size →
  ∃ o ord q,
    build self (run self cs h1)
      = (Return o, <[o := Order ord]> (run self cs h1)) ∧
    run self cs h1 !! o = None ∧
    spec_price the_base the_size (_milk b) (length items) (_iced b) = Some q ∧
    within tolerance (price ord) q.
Proof.
  intros Hnew Hat E1 E2.
  pose proof (reachable_well_formed _ _ _ _ _ _ Hnew Hat) as W.
  destruct (build_price_well_formed b items the_base the_size W E1 E2)
    as (bp&sm&mp&q&L1&L2&L3&Hq&Hclose).
  exists (fresh (dom (run self cs h1))),
    (built_order b items the_base the_size bp sm mp), q.
  split_and!; [by eapply build_spec|apply fresh_loc_unused|done|done].
Qed.

Lemma build_price_formula_witness :
  ∃ o ord q,
    build 2%positive example_heap
      = (Return o, <[o := Order ord]> example_heap) ∧
    example_heap !! o = None ∧
    spec_price "latte" "medium" "oat" 2 true = Some q ∧
    within tolerance (price ord) q.
Proof.
  apply (build_price_formula ∅ 2%positive new_heap example_calls
           example_builder ["vanilla"; "caramel"] "latte" "medium").
  - exact new_heap_init.
  - exact example_heap_builder.
  - reflexivity.
  - reflexivity.
Defined.

(** C2: [build] on a builder whose base is unset raises [ValueError] with
    the message "Base is required"; with base set and size unset it raises
    [ValueError] with the message "Size is required". In both cases the
    heap is exactly as before: the builder is unchanged and no order was
    created. *)
Theorem build_requires_base_and_size h self b items :
  builder_at h self b items →
  (_base b = None →
   build self h = (Raise (Py.ValueError (Py.Text "Base is required")), h)) ∧
  (∀ the_base, _base b = Some the_base → _size b = None →
   build self h = (Raise (Py.ValueError (Py.Text "Size is required")), h)).
Proof.
  intros Hat. split.
  - by apply build_no_base with (b := b) (items := items).
  - intros v. by apply build_no_size with (b := b) (items := items).
Qed.

Lemma build_requires_base_and_size_witness :
  build 2%positive new_heap
    = (Raise (Py.ValueError (Py.Text "Base is required")), new_heap).
Proof.
  apply (build_requires_base_and_size new_heap 2%positive _ []
           new_heap_builder).
  reflexivity.
Defined.

(** Orders are out of a builder's reach: whatever is called on the builder,
    an order object on the heap stays as it is. *)
Lemma run_keeps_orders h self b items cs p ord :
  builder_at h self b items →
  h !! p = Some (Order ord) →
  run self cs h !! p = Some (Order ord).
Proof.
  intros Hat Hp.
  destruct (run_spec self cs _ _ _ Hat) as (b'&items'&_&_&F&_).
  destruct Hat as [Hb Hl].
  apply F; [intros ->; congruence|intros ->; congruence|done].
Qed.

(** C3: a successful [build] changes no object that was on the heap, so the
    builder and its syrup list are as before (not reset, not consumed); it
    adds one order at an unused location, whose syrups are the items the
    list held at that moment. After any further calls on the builder,
    setters or builds, succeeding or failing, that order and every order
    already on the heap are unchanged in every field. *)
Theorem build_snapshot_independent h self b items o h' :
  builder_at h self b items →
  build self h = (Return o, h') →
  builder_at h' self b items ∧
  (∀ p x, h !! p = Some x → h' !! p = Some x) ∧
  ∃ ord,
    h !! o = None ∧ h' !! o = Some (Order ord) ∧ syrups ord = items ∧
    ∀ cs p ord',
      h' !! p = Some (Order ord') → run self cs h' !! p = Some (Order ord').
Proof.
  intros Hat Hbuild.
  destruct (build_cases _ _ _ _ Hat)
    as [[e E]|(x&y&bp&sm&mp&_&_&_&_&_&E)]; rewrite E in Hbuild; [done|].
  injection Hbuild as <- <-.
  pose proof (fresh_loc_unused h) as Hf.
  assert (builder_at (<[fresh (dom h) := Order (built_order b items x y bp sm mp)]> h)
            self b items) as Hat' by by apply builder_at_alloc.
  split_and!; [done| |].
  - intros p v Hp. rewrite lookup_insert_ne; [done|congruence].
  - eexists. split_and!; [done|by rewrite lookup_insert_eq|done|].
    intros cs p ord' Hp. by eapply run_keeps_orders.
Qed.

Lemma build_snapshot_independent_witness :
  builder_at built_heap 2%positive example_builder ["vanilla"; "caramel"] ∧
  (∀ p x, example_heap !! p = Some x → built_heap !! p = Some x) ∧
  ∃ ord,
    example_heap !! 3%positive = None ∧
    built_heap !! 3%positive = Some (Order ord) ∧
    syrups ord = ["vanilla"; "caramel"] ∧
    ∀ cs p ord',
      built_heap !! p = Some (Order ord') →
      run 2%positive cs built_heap !! p = Some (Order ord').
Proof.
  apply (build_snapshot_independent example_heap 2%positive example_builder
           ["vanilla"; "caramel"] 3%positive built_heap).
  - exact example_heap_builder.
  - vm_compute. reflexivity.
Defined.

(** The later calls of the module's second self-check, on the heap that
    holds the first order at location 3: the old order keeps its syrups
    although the builder's list has been cleared in place. *)
Example reuse_keeps_first_order :
  let h := snd (build 2%positive example_heap) in
  let h' := run 2%positive
              [SetBase "espresso"; SetSize "small"; ClearExtras; Build] h in
  (syrups <$> (match h' !! 3%positive with Some (Order o) => Some o | _ => None end))
    = Some ["vanilla"; "caramel"] ∧
  h' !! 1%positive = Some (PyList []) ∧
  (syrups <$> (match h' !! 4%positive with Some (Order o) => Some o | _ => None end))
    = Some [].
Proof. vm_compute. done. Qed.

(** C9: in every state a new builder reaches through any sequence of calls,
    each succeeding or failing, the syrup list has no duplicates and at most
    4 items and the sugar is between 0 and 5; and every order [build] then
    returns has the same bounds on its syrups and sugar. *)
Theorem builder_invariant (h0 : heap) (cs : list call) :
  ∃ self h1,
    CoffeeOrderBuilder__init__ h0 = (Return self, h1) ∧
    (∃ b items,
       builder_at (run self cs h1) self b items ∧
       NoDup items ∧ (length items ≤ 4)%nat ∧
       0 ≤ Py.int_value (_sugar b) ≤ 5) ∧
    (∀ o h', build self (run self cs h1) = (Return o, h') →
       ∃ ord,
         h' !! o = Some (Order ord) ∧
         NoDup (syrups ord) ∧ (length (syrups ord) ≤ 4)%nat ∧
         0 ≤ Py.int_value (sugar ord) ≤ 5).
Proof.
  destruct (new_builder_spec h0) as (self&l&h1&Hnew&Hat0&_).
  exists self, h1. split; [done|].
  destruct (run_spec self cs _ _ _ Hat0) as (b&items&Hat&_&_&W).
  destruct (W (new_builder_well_formed l)) as [_ _ _ Wd Wc Ws].
  split; [by exists b, items|].
  intros o h' Hbuild.
  destruct (build_cases _ _ _ _ Hat)
    as [[e E]|(x&y&bp&sm&mp&_&_&_&_&_&E)]; rewrite E in Hbuild; [done|].
  injection Hbuild as <- <-.
  eexists. split; [by rewrite lookup_insert_eq|]. by simpl.
Qed.

Lemma full_heap_builder :
  builder_at full_heap 2%positive
    (mkBuilder None None "none" 1%positive (Py.Int 0) false)
    ["vanilla"; "caramel"; "hazelnut"; "pumpkin spice"].
Proof. split; vm_compute; reflexivity. Defined.

(** C4, as stated, fails on the text of the message: the fifth syrup is
    refused with "Cannot add more than 4 syrups", capitalised, which is not
    the string "cannot add more than 4 syrups". *)
Lemma fifth_syrup_message_capitalised :
  ∃ m,
    add_syrup 2%positive "extra syrup" full_heap
      = (Raise (Py.ValueError (Py.Text m)), full_heap) ∧
    String.eqb m "cannot add more than 4 syrups" = false.
Proof. eexists. split; vm_compute; reflexivity. Qed.

(** C4, amended: when the syrup list holds 4 items, [add_syrup] with a name
    not among them raises [ValueError] with the message
    "Cannot add more than 4 syrups", and the heap is exactly as before: the
    list keeps its 4 items and the builder its attributes. *)
Theorem add_fifth_syrup_refused h self b items name :
  builder_at h self b items →
  length items = 4%nat → name ∉ items →
  add_syrup self name h
    = (Raise (Py.ValueError (Py.Text "Cannot add more than 4 syrups")), h).
Proof.
  intros Hat Hlen Hnew. rewrite (add_syrup_spec _ _ _ _ Hat).
  case_decide; [done|]. by rewrite Hlen.
Qed.

Lemma add_fifth_syrup_refused_witness :
  add_syrup 2%positive "extra syrup" full_heap
    = (Raise (Py.ValueError (Py.Text "Cannot add more than 4 syrups")),
       full_heap).
Proof.
  apply (add_fifth_syrup_refused full_heap 2%positive _ _ "extra syrup"
           full_heap_builder).
  - reflexivity.
  - apply (bool_decide_unpack _). vm_compute. exact I.
Defined.

(** C5: [add_syrup] with a name already in the list returns the builder and
    leaves the heap exactly as it was, so the list does not grow and a
    following [build] gives what it would have given before; and for every
    name, adding it twice in a row has the outcome and the heap of adding it
    once. *)
Theorem add_syrup_idempotent h self b items name :
  builder_at h self b items →
  (name ∈ items →
   add_syrup self name h = (Return self, h) ∧
   build self (snd (add_syrup self name h)) = build self h) ∧
  (add_syrup self name ;; add_syrup self name) h = add_syrup self name h.
Proof.
  intros Hat. split.
  - intros Hin. rewrite (add_syrup_spec _ _ _ _ Hat).
    by rewrite decide_True.
  - unfold mbind, M_bind, bind. rewrite (add_syrup_spec _ _ _ _ Hat).
    case_decide as Hin.
    { rewrite (add_syrup_spec _ _ _ _ Hat). by rewrite decide_True. }
    destruct (4 <=? Z.of_nat (length items)); [done|].
    rewrite (add_syrup_spec _ self b (items ++ [name]));
      [|by eapply builder_at_store_list].
    rewrite decide_True; [done|].
    apply elem_of_app. right. by apply list_elem_of_singleton.
Qed.

Lemma add_syrup_idempotent_witness :
  ("vanilla" ∈ ["vanilla"; "caramel"] →
   add_syrup 2%positive "vanilla" example_heap
     = (Return 2%positive, example_heap) ∧
   build 2%positive (snd (add_syrup 2%positive "vanilla" example_heap))
     = build 2%positive example_heap) ∧
  (add_syrup 2%positive "vanilla" ;; add_syrup 2%positive "vanilla")
    example_heap
    = add_syrup 2%positive "vanilla" example_heap.
Proof.
  apply (add_syrup_idempotent example_heap 2%positive example_builder
           ["vanilla"; "caramel"] "vanilla").
  exact example_heap_builder.
Defined.

(** C8: [set_sugar] raises [TypeError] on a value that is not an instance
    of [int]; raises [ValueError] on an integer below 0 or above 5, such as
    6 or -1; and accepts every integer from 0 to 5, storing it as the
    builder's sugar and changing nothing else. In both failure cases the
    heap is exactly as before. *)
Theorem set_sugar_checks h self b items :
  builder_at h self b items →
  (∀ v, Py.as_int v = None →
     set_sugar self v h
       = (Raise (Py.TypeError (Py.Text "Sugar must be an int")), h)) ∧
  (∀ z, z < 0 ∨ 5 < z →
     set_sugar self (Py.VInt z) h
       = (Raise (Py.ValueError (Py.Text "Sugar must be between 0 and 5")),
          h)) ∧
  set_sugar self (Py.VInt 6) h
    = (Raise (Py.ValueError (Py.Text "Sugar must be between 0 and 5")), h) ∧
  set_sugar self (Py.VInt (-1)) h
    = (Raise (Py.ValueError (Py.Text "Sugar must be between 0 and 5")), h) ∧
  (∀ z, 0 ≤ z ≤ 5 →
     set_sugar self (Py.VInt z) h
       = (Return self, <[self := Builder (with_sugar (Py.Int z) b)]> h) ∧
     builder_at (<[self := Builder (with_sugar (Py.Int z) b)]> h) self
       (with_sugar (Py.Int z) b) items).
Proof.
  intros Hat. split_and!.
  - intros v Hv. rewrite (set_sugar_spec _ _ _ _ Hat). by rewrite Hv.
  - intros z Hz. rewrite (set_sugar_spec _ _ _ _ Hat). simpl.
    destruct (z <? 0) eqn:E1; [done|]. destruct (5 <? z) eqn:E2; [done|]. lia.
  - by rewrite (set_sugar_spec _ _ _ _ Hat).
  - by rewrite (set_sugar_spec _ _ _ _ Hat).
  - intros z Hz. rewrite (set_sugar_spec _ _ _ _ Hat). simpl.
    destruct (z <? 0) eqn:E1; [lia|]. destruct (5 <? z) eqn:E2; [lia|].
    split; [done|]. by eapply builder_at_store.
Qed.

Lemma set_sugar_checks_witness :
  set_sugar 2%positive (Py.VInt 6) new_heap
    = (Raise (Py.ValueError (Py.Text "Sugar must be between 0 and 5")),
       new_heap).
Proof.
  apply (set_sugar_checks new_heap 2%positive _ [] new_heap_builder).
Defined.

(** C10: [set_sugar] does not raise on a boolean, which passes the
    [isinstance(_, int)] test: [set_sugar(True)] returns the builder and
    stores a sugar worth 1, [set_sugar(False)] one worth 0. [set_iced]
    raises [TypeError] on every value that is not a boolean, the integers 0
    and 1 included, and leaves the heap as it was. *)
Theorem set_sugar_accepts_bool h self b items :
  builder_at h self b items →
  (∀ flag,
     set_sugar self (Py.VBool flag) h
       = (Return self, <[self := Builder (with_sugar (Py.Bool flag) b)]> h) ∧
     builder_at (<[self := Builder (with_sugar (Py.Bool flag) b)]> h) self
       (with_sugar (Py.Bool flag) b) items) ∧
  Py.int_value (Py.Bool true) = 1 ∧
  Py.int_value (Py.Bool false) = 0 ∧
  (∀ v, (∀ flag, v ≠ Py.VBool flag) →
     set_iced self v h
       = (Raise (Py.TypeError (Py.Text "Iced must be a bool")), h)) ∧
  set_iced self (Py.VInt 0) h
    = (Raise (Py.TypeError (Py.Text "Iced must be a bool")), h) ∧
  set_iced self (Py.VInt 1) h
    = (Raise (Py.TypeError (Py.Text "Iced must be a bool")), h).
Proof.
  intros Hat. split_and!; try done.
  - intros flag. rewrite (set_sugar_spec _ _ _ _ Hat).
    split; [by destruct flag|]. by eapply builder_at_store.
  - intros v Hv. rewrite (set_iced_spec _ _ _ _ Hat).
    destruct v; try done. by destruct (Hv b0).
Qed.

Lemma set_sugar_accepts_bool_witness :
  set_sugar 2%positive (Py.VBool true) new_heap
    = (Return 2%positive,
       <[2%positive :=
           Builder (mkBuilder None None "none" 1%positive (Py.Bool true)
                      false)]> new_heap).
Proof.
  apply (set_sugar_accepts_bool new_heap 2%positive _ [] new_heap_builder).
Defined.

(** ** The description *)

Lemma append_nil (b : string) : "" +:+ b = b.
Proof. reflexivity. Qed.

Lemma append_cons (x : Ascii.ascii) (a b : string) :
  String x a +:+ b = String x (a +:+ b).
Proof. reflexivity. Qed.

Lemma append_assoc (a b c : string) : (a +:+ b) +:+ c = a +:+ (b +:+ c).
Proof.
  induction a as [|x a IH]; [done|]. rewrite !append_cons. by rewrite IH.
Qed.

Lemma append_empty_r (a : string) : a +:+ "" = a.
Proof.
  induction a as [|x a IH]; [done|]. rewrite append_cons. by rewrite IH.
Qed.

Ltac flatten_strings :=
  repeat first
    [ rewrite append_assoc | rewrite append_cons | rewrite append_nil
    | rewrite append_empty_r ].

Lemma join_comma first later :
  Py.join ", " (first :: later)
    = first +:+ foldr (λ s rest, ", " +:+ s +:+ rest) "" later.
Proof.
  revert first. induction later as [|s later IH]; intros first.
  - by rewrite append_empty_r.
  - change (Py.join ", " (first :: s :: later))
      with (first +:+ ", " +:+ Py.join ", " (s :: later)).
    by rewrite IH.
Qed.

(** C6: an order constructed without an explicit description gets the text
    of the rendering rule: "{size} {base}", then, each after a single
    space and in this order, "with {milk} milk" if the milk is not "none",
    "+" and the syrups joined by ", " in their order if there are any,
    "(iced)" if iced, "{sugar} tsp sugar" if the sugar is above 0. A medium
    latte with oat milk, vanilla and caramel, sugar 2, iced, is described
    as "medium latte with oat milk +vanilla, caramel (iced) 2 tsp sugar",
    also when it comes out of the builder. *)
Theorem description_rule :
  (∀ base size milk syrups sugar iced price,
     description
       (CoffeeOrder__init__ base size milk syrups sugar iced price None)
     = spec_description size base milk syrups sugar iced) ∧
  description
    (CoffeeOrder__init__ "latte" "medium" "oat" ["vanilla"; "caramel"]
       (Py.Int 2) true 0 None)
  = "medium latte with oat milk +vanilla, caramel (iced) 2 tsp sugar" ∧
  ∃ o ord h',
    build 2%positive example_heap = (Return o, h') ∧
    h' !! o = Some (Order ord) ∧
    description ord
    = "medium latte with oat milk +vanilla, caramel (iced) 2 tsp sugar".
Proof.
  split_and!.
  - intros base size milk syrups sugar iced price.
    unfold CoffeeOrder__init__, _gen_description, spec_description. simpl.
    destruct (String.eqb_spec milk "none") as [->|Hm];
      [rewrite decide_True by done|rewrite decide_False by done];
      (destruct syrups as [|first later];
         [|rewrite (join_comma first later)]);
      destruct iced;
      (destruct (Z.ltb_spec 0 (Py.int_value sugar));
         [rewrite decide_True by done|rewrite decide_False by lia]);
      simpl; flatten_strings; reflexivity.
  - vm_compute. reflexivity.
  - eexists _, _, _. split_and!; vm_compute; reflexivity.
Qed.

(** ** [clear_extras] *)

(** With no milk, no syrup and no ice, the total is the product of the base
    price and the size multiplier, for every base and size of the tables. *)
Lemma total_price_plain the_base the_size :
  the_base ∈ VALID_BASES → the_size ∈ VALID_SIZES →
  match BASE_PRICES !! the_base, SIZE_MULTIPLIERS !! the_size with
  | Some bp, Some sm =>
      total_price bp sm 0.0 0 false = (Py.float_of_int bp * sm)%float
  | _, _ => False
  end.
Proof.
  intros Hb Hs.
  apply valid_base_cases in Hb. apply valid_size_cases in Hs.
  destruct Hb as [->|[->|[->| ->]]]; destruct Hs as [->|[->| ->]];
    vm_compute; reflexivity.
Qed.

(** C7: [clear_extras] returns the builder, sets its milk to "none", its
    sugar to 0 and its iced flag to false, empties its syrup list in place,
    and keeps base, size and every other object as they were. A [build]
    right after it, when base and size are set, gives an order with that
    base and size, milk "none", no syrups, sugar 0, not iced, the price
    base price times size multiplier, and the description "{size} {base}". *)
Theorem clear_extras_resets h self b items :
  builder_at h self b items →
  ∃ h',
    clear_extras self h = (Return self, h') ∧
    builder_at h' self
      (mkBuilder (_base b) (_size b) "none" (_syrups b) (Py.Int 0) false) [] ∧
    frames h h' self b ∧
    ∀ the_base the_size,
      _base b = Some the_base → _size b = Some the_size →
      the_base ∈ VALID_BASES → the_size ∈ VALID_SIZES →
      ∃ o bp sm,
        BASE_PRICES !! the_base = Some bp ∧
        SIZE_MULTIPLIERS !! the_size = Some sm ∧
        h' !! o = None ∧
        build self h'
          = (Return o,
             <[o := Order (mkOrder the_base the_size "none" [] (Py.Int 0)
                             false (Py.float_of_int bp * sm)%float
                             (the_size +:+ " " +:+ the_base))]> h').
Proof.
  intros Hat. eexists. split; [by eapply clear_extras_spec|].
  assert (builder_at
            (<[self := Builder (mkBuilder (_base b) (_size b) "none"
                                  (_syrups b) (Py.Int 0) false)]>
               (<[_syrups b := PyList []]> h))
            self
            (mkBuilder (_base b) (_size b) "none" (_syrups b) (Py.Int 0)
               false) []) as Hat'.
  { eapply builder_at_store; [by eapply builder_at_store_list|done]. }
  split_and!; [done| |].
  - intros p x Hp Hq E. by rewrite !lookup_insert_ne.
  - intros the_base the_size E1 E2 Hb Hs.
    pose proof (total_price_plain _ _ Hb Hs) as Hp.
    destruct (BASE_PRICES !! the_base) as [bp|] eqn:L1; [|done].
    destruct (SIZE_MULTIPLIERS !! the_size) as [sm|] eqn:L2; [|done].
    eexists _, bp, sm. split_and!; [done|done|apply fresh_loc_unused|].
    erewrite (build_spec _ _ _ _ Hat' the_base the_size bp sm 0.0%float);
      [|done..].
    unfold built_order, CoffeeOrder__init__, _gen_description. simpl.
    by rewrite Hp.
Qed.

Lemma clear_extras_resets_witness :
  ∃ h',
    clear_extras 2%positive example_heap = (Return 2%positive, h') ∧
    builder_at h' 2%positive
      (mkBuilder (Some "latte") (Some "medium") "none" 1%positive (Py.Int 0)
         false) [] ∧
    frames example_heap h' 2%positive example_builder ∧
    ∀ the_base the_size,
      Some "latte" = Some the_base → Some "medium" = Some the_size →
      the_base ∈ VALID_BASES → the_size ∈ VALID_SIZES →
      ∃ o bp sm,
        BASE_PRICES !! the_base = Some bp ∧
        SIZE_MULTIPLIERS !! the_size = Some sm ∧
        h' !! o = None ∧
        build 2%positive h'
          = (Return o,
             <[o := Order (mkOrder the_base the_size "none" [] (Py.Int 0)
                             false (Py.float_of_int bp * sm)%float
                             (the_size +:+ " " +:+ the_base))]> h').
Proof.
  apply (clear_extras_resets example_heap 2%positive example_builder
           ["vanilla"; "caramel"]).
  exact example_heap_builder.
Defined.

(** The module's second self-check: after [set_base("espresso")],
    [set_size("small")] and [clear_extras()], the builder of the first
    self-check builds a plain small espresso at 200. *)
Example rebuilt_order :
  let h := run 2%positive
             [SetBase "espresso"; SetSize "small"; ClearExtras] example_heap in
  build 2%positive h
    = (Return 3%positive,
       <[3%positive := Order (mkOrder "espresso" "small" "none" [] (Py.Int 0)
                                false 200 "small espresso")]> h).
Proof. vm_compute. reflexivity. Qed.

(** * Further properties of the module *)

(** ** The validated setters *)

Lemma valid_bases_listed v :
  v ∈ VALID_BASES ↔ v ∈ ["espresso"; "americano"; "latte"; "cappuccino"].
Proof.
  split; [intros H%valid_base_cases; set_unfold; tauto|].
  intros H. set_unfold in H.
  destruct H as [->|[->|[->|[->|[]]]]]; by vm_compute.
Qed.

Lemma valid_sizes_listed v :
  v ∈ VALID_SIZES ↔ v ∈ ["small"; "medium"; "large"].
Proof.
  split; [intros H%valid_size_cases; set_unfold; tauto|].
  intros H. set_unfold in H.
  destruct H as [->|[->|[->|[]]]]; by vm_compute.
Qed.

Lemma valid_milks_listed v :
  v ∈ VALID_MILKS ↔ v ∈ ["none"; "whole"; "skim"; "oat"; "soy"].
Proof.
  split; [intros H%valid_milk_cases; set_unfold; tauto|].
  intros H. set_unfold in H.
  destruct H as [->|[->|[->|[->|[->|[]]]]]]; by vm_compute.
Qed.

(** X1: [set_base], [set_size] and [set_milk] accept exactly the keys of
    their price table (espresso, americano, latte, cappuccino; small,
    medium, large; none, whole, skim, oat, soy, compared case-sensitively):
    an accepted value replaces that one attribute, every other attribute,
    the syrup list and all other objects stay as they are, and the builder
    itself is returned; any other string raises [ValueError] and changes
    nothing. *)
Theorem enum_setters_validate h self b items :
  builder_at h self b items →
  (∀ v,
     set_base self v h =
       if bool_decide (v ∈ ["espresso"; "americano"; "latte"; "cappuccino"])
       then (Return self,
             <[self := Builder (mkBuilder (Some v) (_size b) (_milk b)
                                  (_syrups b) (_sugar b) (_iced b))]> h)
       else (Raise (Py.ValueError (Py.InvalidChoice "base" v VALID_BASES)),
             h)) ∧
  (∀ v,
     set_size self v h =
       if bool_decide (v ∈ ["small"; "medium"; "large"])
       then (Return self,
             <[self := Builder (mkBuilder (_base b) (Some v) (_milk b)
                                  (_syrups b) (_sugar b) (_iced b))]> h)
       else (Raise (Py.ValueError (Py.InvalidChoice "size" v VALID_SIZES)),
             h)) ∧
  (∀ v,
     set_milk self v h =
       if bool_decide (v ∈ ["none"; "whole"; "skim"; "oat"; "soy"])
       then (Return self,
             <[self := Builder (mkBuilder (_base b) (_size b) v (_syrups b)
                                  (_sugar b) (_iced b))]> h)
       else (Raise (Py.ValueError (Py.InvalidChoice "milk" v VALID_MILKS)),
             h)) ∧
  set_base self "Latte" h
    = (Raise (Py.ValueError (Py.InvalidChoice "base" "Latte" VALID_BASES)),
       h).
Proof.
  intros Hat. split_and!.
  - intros v. rewrite (set_base_spec _ _ _ _ Hat).
    case_decide as Hv; rewrite valid_bases_listed in Hv;
      [by rewrite bool_decide_eq_true_2|by rewrite bool_decide_eq_false_2].
  - intros v. rewrite (set_size_spec _ _ _ _ Hat).
    case_decide as Hv; rewrite valid_sizes_listed in Hv;
      [by rewrite bool_decide_eq_true_2|by rewrite bool_decide_eq_false_2].
  - intros v. rewrite (set_milk_spec _ _ _ _ Hat).
    case_decide as Hv; rewrite valid_milks_listed in Hv;
      [by rewrite bool_decide_eq_true_2|by rewrite bool_decide_eq_false_2].
  - rewrite (set_base_spec _ _ _ _ Hat). by rewrite decide_False by by vm_compute.
Qed.

Lemma enum_setters_validate_witness :
  set_base 2%positive "Latte" new_heap
    = (Raise (Py.ValueError (Py.InvalidChoice "base" "Latte" VALID_BASES)),
       new_heap).
Proof.
  apply (enum_setters_validate new_heap 2%positive _ [] new_heap_builder).
Defined.

(** ** The fluent interface *)

(** X2: every method other than [build] that returns, returns the builder
    it was called on, so calls chain; [build] returns a location that held
    no object before, hence not the builder, and the heap it leaves is the
    old one with one order added there. *)
Theorem methods_return_self h self c r h' :
  perform self c h = (Return r, h') →
  (c ≠ Build → r = self) ∧
  (c = Build → h !! r = None ∧ r ≠ self ∧ ∃ ord, h' = <[r := Order ord]> h).
Proof.
  intros E. split.
  - intros Hc. destruct c as [v|v|v|v|v|v| |]; simpl in E; [..|done].
    + unfold set_base in E. case_decide; [|done]. revert E. unfold_M.
      by destruct (h !! self) as [[]|]; intros [= <- <-].
    + unfold set_size in E. case_decide; [|done]. revert E. unfold_M.
      by destruct (h !! self) as [[]|]; intros [= <- <-].
    + unfold set_milk in E. case_decide; [|done]. revert E. unfold_M.
      by destruct (h !! self) as [[]|]; intros [= <- <-].
    + revert E. unfold add_syrup. unfold_M.
      destruct (h !! self) as [[|b|]|]; try done.
      destruct (h !! _syrups b) as [[items| |]|]; try done.
      case_decide; [by intros [= <- <-]|].
      by destruct (MAX_SYRUPS <=? _); intros [= <- <-].
    + revert E. unfold set_sugar.
      destruct (Py.as_int v) as [n|]; [|done].
      destruct (_ || _); [done|]. unfold_M.
      by destruct (h !! self) as [[]|]; intros [= <- <-].
    + revert E. unfold set_iced.
      destruct (Py.as_bool v) as [f|]; [|done]. unfold_M.
      by destruct (h !! self) as [[]|]; intros [= <- <-].
    + revert E. unfold clear_extras. unfold_M.
      destruct (h !! self) as [[|b|]|] eqn:Hs; try done.
      rewrite lookup_insert_eq.
      destruct (<[self:=_]> h !! _) as [[| |]|]; try done.
      destruct (decide (_syrups (with_milk "none" b) = self)) as [Heq|Hne].
      * rewrite Heq, lookup_insert_eq. done.
      * rewrite lookup_insert_ne by done. rewrite lookup_insert_eq.
        rewrite lookup_insert_eq. by intros [= <- <-].
  - intros ->. simpl in E. revert E. unfold build. unfold_M.
    destruct (h !! self) as [[|b|]|] eqn:Hs; try done.
    destruct (_base b) as [x|]; [|done].
    destruct (_size b) as [y|]; [|done].
    destruct (BASE_PRICES !! x); [|done].
    destruct (SIZE_MULTIPLIERS !! y); [|done].
    destruct (MILK_PRICES !! _milk b); [|done].
    destruct (h !! _syrups b) as [[items| |]|]; try done.
    intros [= <- <-]. pose proof (fresh_loc_unused h) as Hf.
    split_and!; [done|congruence|by eexists].
Qed.

Lemma methods_return_self_witness :
  (SetBase "latte" ≠ Build → 2%positive = 2%positive) ∧
  (SetBase "latte" = Build →
   new_heap !! 2%positive = None ∧ 2%positive ≠ 2%positive ∧
   ∃ ord, snd (set_base 2%positive "latte" new_heap)
            = <[2%positive := Order ord]> new_heap).
Proof.
  apply (methods_return_self new_heap 2%positive (SetBase "latte")).
  vm_compute. reflexivity.
Defined.

(** ** Failing calls *)

(** X3: a call that raises leaves the whole heap as it was, for every
    method: no attribute of the builder, no item of its syrup list and no
    other object is changed by a failed call. *)
Theorem failed_call_changes_nothing h self b items c e h' :
  builder_at h self b items →
  perform self c h = (Raise e, h') →
  h' = h.
Proof.
  intros Hat. destruct c as [v|v|v|v|v|v| |]; simpl.
  - rewrite (set_base_spec _ _ _ _ Hat). case_decide; [done|congruence].
  - rewrite (set_size_spec _ _ _ _ Hat). case_decide; [done|congruence].
  - rewrite (set_milk_spec _ _ _ _ Hat). case_decide; [done|congruence].
  - rewrite (add_syrup_spec _ _ _ _ Hat). case_decide; [done|].
    destruct (4 <=? _); [congruence|done].
  - rewrite (set_sugar_spec _ _ _ _ Hat).
    destruct (Py.as_int v); [|congruence].
    destruct (_ || _); [congruence|done].
  - rewrite (set_iced_spec _ _ _ _ Hat).
    destruct (Py.as_bool v); [done|congruence].
  - by rewrite (clear_extras_spec _ _ _ _ Hat).
  - destruct (build_cases _ _ _ _ Hat) as [[e' ->]|(?&?&?&?&?&_&_&_&_&_& ->)];
      [congruence|done].
Qed.

Lemma failed_call_changes_nothing_witness :
  snd (perform 2%positive (AddSyrup "extra syrup") full_heap) = full_heap.
Proof.
  apply (failed_call_changes_nothing full_heap 2%positive _ _
           (AddSyrup "extra syrup")
           (Py.ValueError (Py.Text "Cannot add more than 4 syrups"))
           _ full_heap_builder).
  vm_compute. reflexivity.
Defined.

(** X4: in every state a builder reaches from its creation, a call raises
    nothing but [ValueError] or [TypeError]: the table lookups of [build]
    never miss a key (no [KeyError]), and [clear_extras] never raises. *)
Theorem only_value_and_type_errors h0 self h1 cs c e h' :
  CoffeeOrderBuilder__init__ h0 = (Return self, h1) →
  perform self c (run self cs h1) = (Raise e, h') →
  ((∃ m, e = Py.ValueError m) ∨ (∃ m, e = Py.TypeError m)) ∧
  c ≠ ClearExtras.
Proof.
  intros Hnew.
  destruct (reachable_builder_at _ _ _ cs Hnew) as (b&items&Hat).
  pose proof (reachable_well_formed _ _ _ _ _ _ Hnew Hat) as W.
  assert (∀ m c', c' ≠ ClearExtras →
            ((∃ m', Py.ValueError m = Py.ValueError m') ∨
             (∃ m', Py.ValueError m = Py.TypeError m')) ∧ c' ≠ ClearExtras)
    as Hv by (intros m c' ?; split; [left; by eexists|done]).
  assert (∀ m c', c' ≠ ClearExtras →
            ((∃ m', Py.TypeError m = Py.ValueError m') ∨
             (∃ m', Py.TypeError m = Py.TypeError m')) ∧ c' ≠ ClearExtras)
    as Ht by (intros m c' ?; split; [right; by eexists|done]).
  destruct c as [v|v|v|v|v|v| |]; simpl.
  - rewrite (set_base_spec _ _ _ _ Hat). case_decide; [done|].
    intros [= <- _]. by apply Hv.
  - rewrite (set_size_spec _ _ _ _ Hat). case_decide; [done|].
    intros [= <- _]. by apply Hv.
  - rewrite (set_milk_spec _ _ _ _ Hat). case_decide; [done|].
    intros [= <- _]. by apply Hv.
  - rewrite (add_syrup_spec _ _ _ _ Hat). case_decide; [done|].
    destruct (4 <=? _); [|done]. intros [= <- _]. by apply Hv.
  - rewrite (set_sugar_spec _ _ _ _ Hat).
    destruct (Py.as_int v); [|intros [= <- _]; by apply Ht].
    destruct (_ || _); [|done]. intros [= <- _]. by apply Hv.
  - rewrite (set_iced_spec _ _ _ _ Hat).
    destruct (Py.as_bool v); [done|]. intros [= <- _]. by apply Ht.
  - by rewrite (clear_extras_spec _ _ _ _ Hat).
  - destruct (_base b) as [x|] eqn:E1; cycle 1.
    { rewrite (build_no_base _ _ _ _ Hat E1). intros [= <- _]. by apply Hv. }
    destruct (_size b) as [y|] eqn:E2; cycle 1.
    { rewrite (build_no_size _ _ _ _ Hat _ E1 E2). intros [= <- _].
      by apply Hv. }
    destruct (build_price_well_formed b items x y W E1 E2)
      as (bp&sm&mp&q&L1&L2&L3&_).
    by rewrite (build_spec _ _ _ _ Hat _ _ _ _ _ E1 E2 L1 L2 L3).
Qed.

Lemma only_value_and_type_errors_witness :
  ((∃ m, Py.ValueError (Py.Text "Base is required") = Py.ValueError m) ∨
   (∃ m, Py.ValueError (Py.Text "Base is required") = Py.TypeError m)) ∧
  Build ≠ ClearExtras.
Proof.
  apply (only_value_and_type_errors ∅ 2%positive new_heap [] Build
           (Py.ValueError (Py.Text "Base is required")) new_heap).
  - exact new_heap_init.
  - vm_compute. reflexivity.
Defined.

(** X5: in every state a builder reaches from its creation, [build]
    returns an order exactly when both base and size have been set. *)
Theorem build_succeeds_iff_required_set h0 self h1 cs b items :
  CoffeeOrderBuilder__init__ h0 = (Return self, h1) →
  builder_at (run self cs h1) self b items →
  (is_Some (_base b) ∧ is_Some (_size b)) ↔
  ∃ o h', build self (run self cs h1) = (Return o, h').
Proof.
  intros Hnew Hat.
  pose proof (reachable_well_formed _ _ _ _ _ _ Hnew Hat) as W.
  split.
  - intros [[x E1] [y E2]].
    destruct (build_price_well_formed b items x y W E1 E2)
      as (bp&sm&mp&q&L1&L2&L3&_).
    rewrite (build_spec _ _ _ _ Hat _ _ _ _ _ E1 E2 L1 L2 L3). by eexists _, _.
  - intros (o&h'&E).
    destruct (_base b) as [x|] eqn:E1; cycle 1.
    { by rewrite (build_no_base _ _ _ _ Hat E1) in E. }
    destruct (_size b) as [y|] eqn:E2; cycle 1.
    { by rewrite (build_no_size _ _ _ _ Hat _ E1 E2) in E. }
    split; by eexists.
Qed.

Lemma build_succeeds_iff_required_set_witness :
  (is_Some (Some "latte") ∧ is_Some (Some "medium")) ↔
  ∃ o h', build 2%positive example_heap = (Return o, h').
Proof.
  apply (build_succeeds_iff_required_set ∅ 2%positive new_heap example_calls
           example_builder ["vanilla"; "caramel"]).
  - exact new_heap_init.
  - exact example_heap_builder.
Defined.

(** ** Sequences of [add_syrup] *)

Lemma attempt_add_syrup h self b items name :
  builder_at h self b items →
  attempt self h (AddSyrup name)
    = <[_syrups b := PyList (add_name items name)]> h.
Proof.
  intros Hat. unfold attempt, add_name. simpl.
  rewrite (add_syrup_spec _ _ _ _ Hat). destruct Hat as [_ Hl].
  case_decide; simpl; [by rewrite insert_id|].
  destruct (4 <=? _); simpl; [by rewrite insert_id|done].
Qed.

Lemma run_add_syrups self b names : ∀ h items,
  builder_at h self b items →
  run self (AddSyrup <$> names) h
    = <[_syrups b := PyList (foldl add_name items names)]> h.
Proof.
  induction names as [|x names IH]; intros h items Hat; simpl.
  { destruct Hat as [_ Hl]. by rewrite insert_id. }
  rewrite (attempt_add_syrup _ _ _ _ _ Hat).
  rewrite (IH _ (add_name items x)); [|by eapply builder_at_store_list].
  by rewrite insert_insert_eq.
Qed.

Lemma foldl_add_name names : ∀ items seen,
  (length items ≤ 4)%nat →
  (∀ x, x ∈ items → x ∈ seen) →
  ((length items < 4)%nat → ∀ x, x ∈ seen → x ∈ items) →
  foldl add_name items names
    = items ++ take (4 - length items) (first_occurrences seen names).
Proof.
  induction names as [|x names IH]; intros items seen Hlen Hsub Heq; simpl.
  { by rewrite take_nil, app_nil_r. }
  unfold add_name at 2. case_decide as Hin.
  { rewrite decide_True by auto. by apply IH. }
  destruct (4 <=? Z.of_nat (length items)) eqn:Hfull.
  - apply Z.leb_le in Hfull.
    assert (length items = 4)%nat as H4 by lia.
    rewrite (IH items (if decide (x ∈ seen) then seen else x :: seen));
      [|done| |lia].
    + rewrite H4. simpl. by case_decide.
    + intros y Hy. case_decide; [auto|]. apply elem_of_cons. auto.
  - apply Z.leb_gt in Hfull.
    assert (length items < 4)%nat as Hlt by lia.
    rewrite decide_False by (intros Hs; apply Hin; auto).
    rewrite (IH (items ++ [x]) (x :: seen)).
    + rewrite length_app. simpl.
      replace (4 - length items)%nat with (S (4 - (length items + 1)))%nat
        by lia.
      simpl. by rewrite <- app_assoc.
    + rewrite length_app. simpl. lia.
    + intros y [Hy| ->%list_elem_of_singleton]%elem_of_app;
        apply elem_of_cons; auto.
    + intros _ y [->|Hy]%elem_of_cons; apply elem_of_app;
        [right; by apply list_elem_of_singleton|left; auto].
Qed.

(** X6: whatever names are passed to [add_syrup] one after another on a
    builder whose syrup list is empty, repeated or not and however many,
    the list ends up holding the first four distinct names in the order of
    their first occurrence; the builder's attributes and every other object
    are unchanged. *)
Theorem add_syrups_keeps_first_four_distinct h self b names :
  builder_at h self b [] →
  run self (AddSyrup <$> names) h
    = <[_syrups b := PyList (take 4 (first_occurrences [] names))]> h ∧
  builder_at (run self (AddSyrup <$> names) h) self b
    (take 4 (first_occurrences [] names)).
Proof.
  intros Hat.
  assert (run self (AddSyrup <$> names) h
            = <[_syrups b := PyList (take 4 (first_occurrences [] names))]> h)
    as E.
  { rewrite (run_add_syrups _ _ _ _ _ Hat).
    by rewrite (foldl_add_name names [] []); [|simpl; lia|done|done]. }
  split; [done|]. rewrite E. by eapply builder_at_store_list.
Qed.

Lemma add_syrups_keeps_first_four_distinct_witness :
  run 2%positive
    (AddSyrup <$> ["vanilla"; "vanilla"; "caramel"; "mint"; "caramel";
                   "hazelnut"; "cocoa"; "vanilla"]) new_heap
    = <[1%positive :=
          PyList (take 4 (first_occurrences []
                    ["vanilla"; "vanilla"; "caramel"; "mint"; "caramel";
                     "hazelnut"; "cocoa"; "vanilla"]))]> new_heap ∧
  builder_at
    (run 2%positive
       (AddSyrup <$> ["vanilla"; "vanilla"; "caramel"; "mint"; "caramel";
                      "hazelnut"; "cocoa"; "vanilla"]) new_heap)
    2%positive (mkBuilder None None "none" 1%positive (Py.Int 0) false)
    (take 4 (first_occurrences []
               ["vanilla"; "vanilla"; "caramel"; "mint"; "caramel";
                "hazelnut"; "cocoa"; "vanilla"])).
Proof.
  apply (add_syrups_keeps_first_four_distinct new_heap 2%positive _ _
           new_heap_builder).
Defined.

Example first_four_distinct :
  take 4 (first_occurrences []
            ["vanilla"; "vanilla"; "caramel"; "mint"; "caramel"; "hazelnut";
             "cocoa"; "vanilla"])
  = ["vanilla"; "caramel"; "mint"; "hazelnut"].
Proof. vm_compute. reflexivity. Qed.

(** ** Builders do not share state *)

Lemma attempt_step h self b items c :
  builder_at h self b items →
  builder_at (attempt self h c) self (step c b items).1 (step c b items).2 ∧
  _syrups (step c b items).1 = _syrups b ∧
  frames h (attempt self h c) self b.
Proof.
  intros Hat. unfold attempt.
  destruct c as [v|v|v|v|v|v| |]; simpl.
  - rewrite (set_base_spec _ _ _ _ Hat). case_decide; simpl;
      split_and!; try done;
      first [by eapply builder_at_store|apply frames_store|apply frames_refl].
  - rewrite (set_size_spec _ _ _ _ Hat). case_decide; simpl;
      split_and!; try done;
      first [by eapply builder_at_store|apply frames_store|apply frames_refl].
  - rewrite (set_milk_spec _ _ _ _ Hat). case_decide; simpl;
      split_and!; try done;
      first [by eapply builder_at_store|apply frames_store|apply frames_refl].
  - pose proof (attempt_add_syrup _ _ _ _ v Hat) as E.
    unfold attempt in E. simpl in E. rewrite E.
    split_and!; [by eapply builder_at_store_list|done|
                  apply frames_store_list].
  - rewrite (set_sugar_spec _ _ _ _ Hat).
    destruct (Py.as_int v) as [n|]; simpl;
      [destruct (_ || _); simpl|]; split_and!; try done;
      first [by eapply builder_at_store|apply frames_store|apply frames_refl].
  - rewrite (set_iced_spec _ _ _ _ Hat).
    destruct (Py.as_bool v) as [f|]; simpl; split_and!; try done;
      first [by eapply builder_at_store|apply frames_store|apply frames_refl].
  - rewrite (clear_extras_spec _ _ _ _ Hat). simpl. split_and!; [|done|].
    + eapply builder_at_store; [by eapply builder_at_store_list|done].
    + intros p x Hp Hq E. by rewrite !lookup_insert_ne.
  - destruct (build_cases _ _ _ _ Hat) as [[e ->]|(x&y&bp&sm&mp&_&_&_&_&_& ->)];
      simpl; split_and!; try done;
      first [by apply builder_at_alloc|apply frames_alloc|apply frames_refl].
Qed.

Lemma new_builder_fresh h0 self h1 :
  CoffeeOrderBuilder__init__ h0 = (Return self, h1) →
  ∃ l,
    h0 !! self = None ∧ h0 !! l = None ∧ l ≠ self ∧
    builder_at h1 self (mkBuilder None None "none" l (Py.Int 0) false) [] ∧
    (∀ p x, h0 !! p = Some x → h1 !! p = Some x).
Proof.
  intros Hnew. destruct (new_builder_spec h0) as (self'&l&h1'&E&Hat&F).
  rewrite Hnew in E. injection E as <- <-.
  revert Hnew. unfold CoffeeOrderBuilder__init__. unfold_M.
  intros [= Hself Hh].
  pose proof (fresh_loc_unused h0) as F0.
  pose proof (fresh_loc_unused (<[fresh (dom h0) := PyList []]> h0)) as F1.
  rewrite Hself in F1.
  assert (self ≠ fresh (dom h0)) as Hne
    by (intros ->; by rewrite lookup_insert_eq in F1).
  rewrite lookup_insert_ne in F1 by done.
  assert (l = fresh (dom h0)) as ->.
  { destruct Hat as [Hb _]. rewrite Hself in Hh.
    rewrite <- Hh, lookup_insert_eq in Hb. by injection Hb. }
  exists (fresh (dom h0)). by split_and!.
Qed.

Lemma steps_syrups cs : ∀ b items, _syrups (steps cs b items).1 = _syrups b.
Proof.
  unfold steps. induction cs as [|c cs IH]; intros b items; simpl; [done|].
  destruct (step c b items) as [b' items'] eqn:E. rewrite IH.
  assert (_syrups (step c b items).1 = _syrups b) as H; [|by rewrite E in H].
  destruct c; simpl; repeat case_match; done.
Qed.

Lemma run_steps self cs : ∀ h b items,
  builder_at h self b items →
  builder_at (run self cs h) self (steps cs b items).1 (steps cs b items).2.
Proof.
  unfold steps. induction cs as [|c cs IH]; intros h b items Hat; simpl;
    [done|].
  destruct (attempt_step h self b items c Hat) as (Hat'&_&_).
  destruct (step c b items) as [b' items']. by apply IH.
Qed.

(** Another builder with a list of its own is out of a call's reach. *)
Lemma attempt_keeps_other h a ba la b bb lb c :
  builder_at h a ba la → builder_at h b bb lb →
  a ≠ b → _syrups ba ≠ _syrups bb →
  builder_at (attempt a h c) b bb lb.
Proof.
  intros Ha Hb Hne Hl.
  destruct (attempt_step h a ba la c Ha) as (_&_&F).
  destruct Ha as [Ha1 Ha2], Hb as [Hb1 Hb2].
  split; apply F; try done; intros E; rewrite E in *; congruence.
Qed.

Lemma run_two_steps a b cs : ∀ h ba la bb lb,
  builder_at h a ba la → builder_at h b bb lb →
  a ≠ b → _syrups ba ≠ _syrups bb →
  builder_at (run_two a b cs h) a
    (steps (calls_of true cs) ba la).1 (steps (calls_of true cs) ba la).2 ∧
  builder_at (run_two a b cs h) b
    (steps (calls_of false cs) bb lb).1 (steps (calls_of false cs) bb lb).2.
Proof.
  unfold run_two, calls_of, steps.
  induction cs as [|[[] c] cs IH]; intros h ba la bb lb Ha Hb Hne Hl; simpl;
    [done| |].
  - destruct (attempt_step h a ba la c Ha) as (Ha'&Hs&_).
    pose proof (attempt_keeps_other _ _ _ _ _ _ _ c Ha Hb Hne Hl) as Hb'.
    destruct (step c ba la) as [ba' la']. simpl in *.
    apply IH; try done. congruence.
  - destruct (attempt_step h b bb lb c Hb) as (Hb'&Hs&_).
    pose proof (attempt_keeps_other _ _ _ _ _ _ _ c Hb Ha
                  (not_eq_sym Hne) (not_eq_sym Hl)) as Ha'.
    destruct (step c bb lb) as [bb' lb']. simpl in *.
    apply IH; try done. congruence.
Qed.

(** X7: two builders share nothing. When a second builder is created, at
    any point in the life of a first one, it is a different object with a
    syrup list of its own; and after any interleaving of calls on the two,
    succeeding or failing, each builder's attributes and syrup items are
    what its own calls alone would have made them. *)
Theorem builders_do_not_share_state h0 a h1 csa b h2 cs :
  CoffeeOrderBuilder__init__ h0 = (Return a, h1) →
  CoffeeOrderBuilder__init__ (run a csa h1) = (Return b, h2) →
  ∃ ba la bb lb,
    a ≠ b ∧ _syrups ba ≠ _syrups bb ∧
    builder_at (run_two a b cs h2) a ba la ∧
    builder_at (run a (calls_of true cs) h2) a ba la ∧
    builder_at (run_two a b cs h2) b bb lb ∧
    builder_at (run b (calls_of false cs) h2) b bb lb.
Proof.
  intros Hnew_a Hnew_b.
  destruct (reachable_builder_at _ _ _ csa Hnew_a) as (ba0&la0&Ha0).
  destruct (new_builder_fresh _ _ _ Hnew_b) as (l&Fb&Fl&_&Hb&F).
  assert (builder_at h2 a ba0 la0) as Ha
    by (destruct Ha0 as [H1 H2]; split; by apply F).
  assert (a ≠ b) as Hne by (intros ->; destruct Ha0; congruence).
  assert (_syrups ba0 ≠ l) as Hl by (intros <-; destruct Ha0; congruence).
  destruct (run_two_steps a b cs h2 _ _ _ _ Ha Hb Hne Hl) as [Ra Rb].
  eexists _, _, _, _. split_and!; [done| |exact Ra| |exact Rb|].
  - by rewrite !steps_syrups.
  - by apply run_steps.
  - by apply run_steps.
Qed.

Lemma builders_do_not_share_state_witness :
  ∃ ba la bb lb,
    2%positive ≠ 4%positive ∧ _syrups ba ≠ _syrups bb ∧
    builder_at
      (run_two 2%positive 4%positive
         [(true, ClearExtras); (false, AddSyrup "mint"); (true, Build)]
         (snd (CoffeeOrderBuilder__init__ example_heap)))
      2%positive ba la ∧
    builder_at
      (run 2%positive
         (calls_of true
            [(true, ClearExtras); (false, AddSyrup "mint"); (true, Build)])
         (snd (CoffeeOrderBuilder__init__ example_heap)))
      2%positive ba la ∧
    builder_at
      (run_two 2%positive 4%positive
         [(true, ClearExtras); (false, AddSyrup "mint"); (true, Build)]
         (snd (CoffeeOrderBuilder__init__ example_heap)))
      4%positive bb lb ∧
    builder_at
      (run 4%positive
         (calls_of false
            [(true, ClearExtras); (false, AddSyrup "mint"); (true, Build)])
         (snd (CoffeeOrderBuilder__init__ example_heap)))
      4%positive bb lb.
Proof.
  apply (builders_do_not_share_state ∅ 2%positive new_heap example_calls
           4%positive (snd (CoffeeOrderBuilder__init__ example_heap))).
  - exact new_heap_init.
  - vm_compute. reflexivity.
Defined.

(** ** Building again *)

(** X8: [build] can be repeated. After a [build] that returned an order, a
    second [build] on the same builder returns too, at another location,
    and the two orders have the same value in every field; the first order
    is still on the heap. *)
Theorem build_twice h self b items o1 h1 :
  builder_at h self b items →
  build self h = (Return o1, h1) →
  ∃ o2 h2 ord,
    build self h1 = (Return o2, h2) ∧ o1 ≠ o2 ∧
    h1 !! o1 = Some (Order ord) ∧
    h2 !! o1 = Some (Order ord) ∧ h2 !! o2 = Some (Order ord).
Proof.
  intros Hat E.
  destruct (build_cases _ _ _ _ Hat)
    as [[e E']|(x&y&bp&sm&mp&E1&E2&L1&L2&L3&E')]; rewrite E' in E; [done|].
  injection E as <- <-.
  set (ord := built_order b items x y bp sm mp).
  set (h1 := <[fresh (dom h) := Order ord]> h).
  assert (builder_at h1 self b items) as Hat1 by by apply builder_at_alloc.
  assert (h1 !! fresh (dom h) = Some (Order ord)) as Ho
    by apply lookup_insert_eq.
  pose proof (fresh_loc_unused h1) as Hf.
  assert (fresh (dom h) ≠ fresh (dom h1)) as Hne by (intros Heq; congruence).
  exists (fresh (dom h1)), (<[fresh (dom h1) := Order ord]> h1), ord.
  split_and!; [by eapply build_spec|done|done| |].
  - by rewrite lookup_insert_ne.
  - apply lookup_insert_eq.
Qed.

Lemma build_twice_witness :
  ∃ o2 h2 ord,
    build 2%positive built_heap = (Return o2, h2) ∧ 3%positive ≠ o2 ∧
    built_heap !! 3%positive = Some (Order ord) ∧
    h2 !! 3%positive = Some (Order ord) ∧ h2 !! o2 = Some (Order ord).
Proof.
  apply (build_twice example_heap 2%positive example_builder
           ["vanilla"; "caramel"]).
  - exact example_heap_builder.
  - vm_compute. reflexivity.
Defined.

(** ** Prices *)

(** What [build] returns in a state reached from the builder's creation. *)
Lemma reachable_build h0 self h1 cs b items o h' :
  CoffeeOrderBuilder__init__ h0 = (Return self, h1) →
  builder_at (run self cs h1) self b items →
  build self (run self cs h1) = (Return o, h') →
  ∃ x y bp sm mp,
    _base b = Some x ∧ _size b = Some y ∧
    x ∈ VALID_BASES ∧ y ∈ VALID_SIZES ∧ _milk b ∈ VALID_MILKS ∧
    (length items ≤ 4)%nat ∧
    BASE_PRICES !! x = Some bp ∧ SIZE_MULTIPLIERS !! y = Some sm ∧
    MILK_PRICES !! _milk b = Some mp ∧
    h' !! o = Some (Order (built_order b items x y bp sm mp)).
Proof.
  intros Hnew Hat E.
  destruct (reachable_well_formed _ _ _ _ _ _ Hnew Hat) as [Wb Ws Wm _ Wc _].
  destruct (build_cases _ _ _ _ Hat)
    as [[e E']|(x&y&bp&sm&mp&E1&E2&L1&L2&L3&E')]; rewrite E' in E; [done|].
  injection E as <- <-. exists x, y, bp, sm, mp.
  split_and!; try done; [by apply Wb|by apply Ws|apply lookup_insert_eq].
Qed.

Lemma total_price_bounded x y mk n iced :
  x ∈ VALID_BASES → y ∈ VALID_SIZES → mk ∈ VALID_MILKS → (n ≤ 4)%nat →
  match BASE_PRICES !! x, SIZE_MULTIPLIERS !! y, MILK_PRICES !! mk with
  | Some bp, Some sm, Some mp =>
      ((200 <=? total_price bp sm mp n iced)
       && (total_price bp sm mp n iced <=? 668.2)
       && (0 <? total_price bp sm mp n iced))%float = true
  | _, _, _ => False
  end.
Proof.
  intros Hb Hs Hm Hc.
  apply valid_base_cases in Hb. apply valid_size_cases in Hs.
  apply valid_milk_cases in Hm.
  assert (n = 0 ∨ n = 1 ∨ n = 2 ∨ n = 3 ∨ n = 4)%nat as Hn by lia.
  destruct iced;
    destruct Hb as [->|[->|[->| ->]]];
    destruct Hs as [->|[->| ->]];
    destruct Hm as [->|[->|[->|[->| ->]]]];
    destruct Hn as [->|[->|[->|[->| ->]]]];
    vm_compute; reflexivity.
Qed.

(** X9: every order [build] returns in a state reached from the builder's
    creation has a price between 200 (a small espresso) and 668.2 (a large
    cappuccino with oat milk, four syrups and ice), in binary64
    comparison: the price is a finite positive number. *)
Theorem price_bounds h0 self h1 cs o h' :
  CoffeeOrderBuilder__init__ h0 = (Return self, h1) →
  build self (run self cs h1) = (Return o, h') →
  ∃ ord,
    h' !! o = Some (Order ord) ∧
    (200 <=? price ord)%float = true ∧ (price ord <=? 668.2)%float = true ∧
    (0 <? price ord)%float = true.
Proof.
  intros Hnew E.
  destruct (reachable_builder_at _ _ _ cs Hnew) as (b&items&Hat).
  destruct (reachable_build _ _ _ _ _ _ _ _ Hnew Hat E)
    as (x&y&bp&sm&mp&_&_&Hx&Hy&Hm&Hc&L1&L2&L3&Ho).
  eexists. split; [done|]. simpl.
  pose proof (total_price_bounded x y (_milk b) (length items) (_iced b)
                Hx Hy Hm Hc) as H.
  rewrite L1, L2, L3 in H.
  apply andb_true_iff in H as [[Hlo Hhi]%andb_true_iff Hpos]. done.
Qed.

Lemma price_bounds_witness :
  ∃ ord,
    built_heap !! 3%positive = Some (Order ord) ∧
    (200 <=? price ord)%float = true ∧ (price ord <=? 668.2)%float = true ∧
    (0 <? price ord)%float = true.
Proof.
  apply (price_bounds ∅ 2%positive new_heap example_calls 3%positive
           built_heap).
  - exact new_heap_init.
  - vm_compute. reflexivity.
Defined.

Lemma run_snoc self cs c h :
  run self (cs ++ [c]) h = attempt self (run self cs h) c.
Proof. unfold run. by rewrite foldl_app. Qed.

Lemma total_price_iced x y mk n :
  x ∈ VALID_BASES → y ∈ VALID_SIZES → mk ∈ VALID_MILKS → (n ≤ 4)%nat →
  match BASE_PRICES !! x, SIZE_MULTIPLIERS !! y, MILK_PRICES !! mk with
  | Some bp, Some sm, Some mp =>
      total_price bp sm mp n true
        = (total_price bp sm mp n false + ICED_EXTRA)%float ∧
      (total_price bp sm mp n false <? total_price bp sm mp n true)%float
        = true
  | _, _, _ => False
  end.
Proof.
  intros Hb Hs Hm Hc.
  apply valid_base_cases in Hb. apply valid_size_cases in Hs.
  apply valid_milk_cases in Hm.
  assert (n = 0 ∨ n = 1 ∨ n = 2 ∨ n = 3 ∨ n = 4)%nat as Hn by lia.
  destruct Hb as [->|[->|[->| ->]]];
    destruct Hs as [->|[->| ->]];
    destruct Hm as [->|[->|[->|[->| ->]]]];
    destruct Hn as [->|[->|[->|[->| ->]]]];
    vm_compute; split; reflexivity.
Qed.

Lemma total_price_next_syrup x y mk n iced :
  x ∈ VALID_BASES → y ∈ VALID_SIZES → mk ∈ VALID_MILKS → (n < 4)%nat →
  match BASE_PRICES !! x, SIZE_MULTIPLIERS !! y, MILK_PRICES !! mk with
  | Some bp, Some sm, Some mp =>
      ((total_price bp sm mp n iced <? total_price bp sm mp (S n) iced)
       && (abs (total_price bp sm mp (S n) iced - total_price bp sm mp n iced
                - SYRUP_PRICE) <? 0.0001))%float = true
  | _, _, _ => False
  end.
Proof.
  intros Hb Hs Hm Hc.
  apply valid_base_cases in Hb. apply valid_size_cases in Hs.
  apply valid_milk_cases in Hm.
  assert (n = 0 ∨ n = 1 ∨ n = 2 ∨ n = 3)%nat as Hn by lia.
  destruct iced;
    destruct Hb as [->|[->|[->| ->]]];
    destruct Hs as [->|[->| ->]];
    destruct Hm as [->|[->|[->|[->| ->]]]];
    destruct Hn as [->|[->|[->| ->]]];
    vm_compute; reflexivity.
Qed.

(** X10: ice costs exactly [ICED_EXTRA]. From any state reached from the
    builder's creation, the order built after [set_iced(True)] has the
    price of the order built after [set_iced(False)] plus 0.2, as one
    binary64 addition, and that is strictly more. *)
Theorem iced_surcharge h0 self h1 cs o1 ha o2 hb :
  CoffeeOrderBuilder__init__ h0 = (Return self, h1) →
  build self (run self (cs ++ [SetIced (Py.VBool false)]) h1)
    = (Return o1, ha) →
  build self (run self (cs ++ [SetIced (Py.VBool true)]) h1)
    = (Return o2, hb) →
  ∃ plain with_ice,
    ha !! o1 = Some (Order plain) ∧ hb !! o2 = Some (Order with_ice) ∧
    price with_ice = (price plain + ICED_EXTRA)%float ∧
    (price plain <? price with_ice)%float = true.
Proof.
  intros Hnew Ea Eb.
  destruct (reachable_builder_at _ _ _ cs Hnew) as (b&items&Hat).
  pose proof (attempt_step _ _ _ _ (SetIced (Py.VBool false)) Hat)
    as (Hata&_&_).
  pose proof (attempt_step _ _ _ _ (SetIced (Py.VBool true)) Hat)
    as (Hatb&_&_).
  rewrite <- run_snoc in Hata, Hatb. simpl in Hata, Hatb.
  destruct (reachable_build _ _ _ _ _ _ _ _ Hnew Hata Ea)
    as (x&y&bp&sm&mp&E1&E2&Hx&Hy&Hm&Hc&L1&L2&L3&Ho).
  destruct (reachable_build _ _ _ _ _ _ _ _ Hnew Hatb Eb)
    as (x'&y'&bp'&sm'&mp'&E1'&E2'&_&_&_&_&L1'&L2'&L3'&Ho').
  simpl in *. rewrite E1 in E1'. injection E1' as <-.
  rewrite E2 in E2'. injection E2' as <-.
  rewrite L1 in L1'. injection L1' as <-.
  rewrite L2 in L2'. injection L2' as <-.
  rewrite L3 in L3'. injection L3' as <-.
  eexists _, _. split_and!; [done|done|simpl..].
  - pose proof (total_price_iced x y (_milk b) (length items) Hx Hy Hm Hc)
      as H. rewrite L1, L2, L3 in H. apply H.
  - pose proof (total_price_iced x y (_milk b) (length items) Hx Hy Hm Hc)
      as H. rewrite L1, L2, L3 in H. apply H.
Qed.

Lemma iced_surcharge_witness :
  ∃ plain with_ice,
    snd (build 2%positive
           (run 2%positive (example_calls ++ [SetIced (Py.VBool false)])
              new_heap)) !! 3%positive = Some (Order plain) ∧
    snd (build 2%positive
           (run 2%positive (example_calls ++ [SetIced (Py.VBool true)])
              new_heap)) !! 3%positive = Some (Order with_ice) ∧
    price with_ice = (price plain + ICED_EXTRA)%float ∧
    (price plain <? price with_ice)%float = true.
Proof.
  apply (iced_surcharge ∅ 2%positive new_heap example_calls).
  - exact new_heap_init.
  - vm_compute. reflexivity.
  - vm_compute. reflexivity.
Defined.

(** X11: each syrup costs 40. From any state reached from the builder's
    creation with fewer than four syrups, adding a name that is not in the
    list makes the price of the order built afterwards strictly higher
    than that of the order built before, by 40 up to 0.0001 in binary64
    arithmetic. *)
Theorem syrup_surcharge h0 self h1 cs name b items o1 ha o2 hb :
  CoffeeOrderBuilder__init__ h0 = (Return self, h1) →
  builder_at (run self cs h1) self b items →
  name ∉ items → (length items < 4)%nat →
  build self (run self cs h1) = (Return o1, ha) →
  build self (run self (cs ++ [AddSyrup name]) h1) = (Return o2, hb) →
  ∃ before after,
    ha !! o1 = Some (Order before) ∧ hb !! o2 = Some (Order after) ∧
    syrups after = syrups before ++ [name] ∧
    (price before <? price after)%float = true ∧
    (abs (price after - price before - SYRUP_PRICE) <? 0.0001)%float = true.
Proof.
  intros Hnew Hat Hin Hlen Ea Eb.
  pose proof (attempt_step _ _ _ _ (AddSyrup name) Hat) as (Hatb&_&_).
  rewrite <- run_snoc in Hatb. simpl in Hatb. unfold add_name in Hatb.
  rewrite decide_False in Hatb by done.
  replace (4 <=? Z.of_nat (length items)) with false in Hatb
    by (symmetry; apply Z.leb_gt; lia).
  destruct (reachable_build _ _ _ _ _ _ _ _ Hnew Hat Ea)
    as (x&y&bp&sm&mp&E1&E2&Hx&Hy&Hm&Hc&L1&L2&L3&Ho).
  destruct (reachable_build _ _ _ _ _ _ _ _ Hnew Hatb Eb)
    as (x'&y'&bp'&sm'&mp'&E1'&E2'&_&_&_&_&L1'&L2'&L3'&Ho').
  rewrite E1 in E1'. injection E1' as <-.
  rewrite E2 in E2'. injection E2' as <-.
  rewrite L1 in L1'. injection L1' as <-.
  rewrite L2 in L2'. injection L2' as <-.
  rewrite L3 in L3'. injection L3' as <-.
  eexists _, _. split_and!; [done|done|done|simpl..].
  - pose proof (total_price_next_syrup x y (_milk b) (length items) (_iced b)
                  Hx Hy Hm Hlen) as H.
    rewrite L1, L2, L3 in H. apply andb_true_iff in H as [H _].
    rewrite length_app. simpl. by rewrite Nat.add_1_r.
  - pose proof (total_price_next_syrup x y (_milk b) (length items) (_iced b)
                  Hx Hy Hm Hlen) as H.
    rewrite L1, L2, L3 in H. apply andb_true_iff in H as [_ H].
    rewrite length_app. simpl. by rewrite Nat.add_1_r.
Qed.

Lemma syrup_surcharge_witness :
  ∃ before after,
    built_heap !! 3%positive = Some (Order before) ∧
    snd (build 2%positive
           (run 2%positive (example_calls ++ [AddSyrup "mint"]) new_heap))
      !! 3%positive = Some (Order after) ∧
    syrups after = syrups before ++ ["mint"] ∧
    (price before <? price after)%float = true ∧
    (abs (price after - price before - SYRUP_PRICE) <? 0.0001)%float = true.
Proof.
  apply (syrup_surcharge ∅ 2%positive new_heap example_calls "mint"
           example_builder ["vanilla"; "caramel"] 3%positive built_heap
           3%positive).
  - exact new_heap_init.
  - exact example_heap_builder.
  - apply (bool_decide_unpack _). vm_compute. exact I.
  - simpl. lia.
  - vm_compute. reflexivity.
  - vm_compute. reflexivity.
Defined.

(** ** [__str__] *)

Lemma join_two_or_more first second more :
  ∃ rest, Py.join " " (first :: second :: more) = first +:+ " " +:+ rest.
Proof. by eexists. Qed.

Lemma append_space_nonempty (a rest : string) : a +:+ " " +:+ rest ≠ "".
Proof. by destruct a. Qed.

Lemma gen_description_nonempty (o : CoffeeOrder) : _gen_description o ≠ "".
Proof.
  unfold _gen_description.
  destruct (String.eqb (milk o) "none"), (syrups o), (iced o),
    (0 <? Py.int_value (sugar o)); cbn [app];
    match goal with
    | |- Py.join " " (?a :: ?b :: ?m) ≠ _ =>
        destruct (join_two_or_more a b m) as [rest ->]
    end; apply append_space_nonempty.
Qed.

(** X12: [str(order)] is the description for every order constructed
    without an explicit description, since a generated description is never
    empty, and so for every order [build] returns; an explicit description
    that is not empty is returned as it is; only an explicit empty
    description gives the fallback text "Coffee order: {price:.2f} ₽". *)
Theorem str_is_description :
  (∀ base size milk syrups sugar iced price,
     CoffeeOrder__str__
       (CoffeeOrder__init__ base size milk syrups sugar iced price None)
     = description
         (CoffeeOrder__init__ base size milk syrups sugar iced price None)) ∧
  (∀ h self b items o h',
     builder_at h self b items → build self h = (Return o, h') →
     ∃ ord, h' !! o = Some (Order ord) ∧
            CoffeeOrder__str__ ord = description ord) ∧
  (∀ base size milk syrups sugar iced price d,
     d ≠ "" →
     CoffeeOrder__str__
       (CoffeeOrder__init__ base size milk syrups sugar iced price (Some d))
     = d) ∧
  (∀ base size milk syrups sugar iced price,
     CoffeeOrder__str__
       (CoffeeOrder__init__ base size milk syrups sugar iced price (Some ""))
     = "Coffee order: " +:+ format_2f price +:+ " ₽") ∧
  CoffeeOrder__str__
    (CoffeeOrder__init__ "latte" "small" "none" [] (Py.Int 0) false 12.5
       (Some ""))
  = "Coffee order: 12.50 ₽".
Proof.
  assert (∀ base size milk syrups sugar iced price,
            CoffeeOrder__str__
              (CoffeeOrder__init__ base size milk syrups sugar iced price None)
            = description
                (CoffeeOrder__init__ base size milk syrups sugar iced price
                   None)) as Hgen.
  { intros base size milk syrups sugar iced price.
    unfold CoffeeOrder__str__, CoffeeOrder__init__. simpl.
    pose proof (gen_description_nonempty
                  (mkOrder base size milk syrups sugar iced price "")) as H.
    by destruct (_gen_description _). }
  split_and!; [done| | | |by vm_compute].
  - intros h self b items o h' Hat E.
    destruct (build_cases _ _ _ _ Hat)
      as [[e E']|(x&y&bp&sm&mp&_&_&_&_&_&E')]; rewrite E' in E; [done|].
    injection E as <- <-. eexists. split; [apply lookup_insert_eq|].
    apply Hgen.
  - intros base size milk syrups sugar iced price d Hd.
    unfold CoffeeOrder__str__, CoffeeOrder__init__. simpl. by destruct d.
  - done.
Qed.

(** ** The self-check *)

(** X13: run as a script on an empty heap, the module passes every one of
    its assertions, in all eight scenarios, and raises nothing outside the
    [try] blocks: it reaches its last line. *)
Theorem self_check_passes : fst (self_check ∅) = inl tt.
Proof. vm_compute. reflexivity. Qed.

(** ** Order of the setter calls *)

(** The heap after a call that is not [build]: the builder object and its
    list are overwritten with the next state, nothing else moves. *)
Lemma attempt_heap h self b items c :
  builder_at h self b items → c ≠ Build →
  attempt self h c
    = <[self := Builder (step c b items).1]>
        (<[_syrups b := PyList (step c b items).2]> h).
Proof.
  intros Hat Hc. pose proof (builder_at_distinct _ _ _ _ Hat) as Hne.
  assert (<[_syrups b := PyList items]> h = h) as Hl
    by (destruct Hat as [_ Hl]; by rewrite insert_id).
  assert (<[self := Builder b]> h = h) as Hb
    by (destruct Hat as [Hb _]; by rewrite insert_id).
  unfold attempt. destruct c as [v|v|v|v|v|v| |]; simpl; [..|done].
  - rewrite (set_base_spec _ _ _ _ Hat). case_decide; simpl;
      by rewrite Hl, ?Hb.
  - rewrite (set_size_spec _ _ _ _ Hat). case_decide; simpl;
      by rewrite Hl, ?Hb.
  - rewrite (set_milk_spec _ _ _ _ Hat). case_decide; simpl;
      by rewrite Hl, ?Hb.
  - pose proof (attempt_add_syrup _ _ _ _ v Hat) as E.
    unfold attempt in E. simpl in E. rewrite E.
    rewrite insert_insert_ne by done. by rewrite Hb.
  - rewrite (set_sugar_spec _ _ _ _ Hat).
    destruct (Py.as_int v) as [n|]; simpl;
      [destruct (_ || _); simpl|]; by rewrite Hl, ?Hb.
  - rewrite (set_iced_spec _ _ _ _ Hat).
    destruct (Py.as_bool v) as [f|]; simpl; by rewrite Hl, ?Hb.
  - by rewrite (clear_extras_spec _ _ _ _ Hat).
Qed.

Lemma run_two_calls h self b items c1 c2 :
  builder_at h self b items → c1 ≠ Build → c2 ≠ Build →
  run self [c1; c2] h
    = <[self := Builder (steps [c1; c2] b items).1]>
        (<[_syrups b := PyList (steps [c1; c2] b items).2]> h).
Proof.
  intros Hat H1 H2. pose proof (builder_at_distinct _ _ _ _ Hat) as Hne.
  destruct (attempt_step h self b items c1 Hat) as (Hat1&Hs&_).
  unfold run, steps. simpl.
  rewrite (attempt_heap _ _ _ _ c2 Hat1 H2), (attempt_heap _ _ _ _ c1 Hat H1).
  rewrite Hs. apply map_eq. intros p.
  destruct (decide (p = self)) as [->|Hp]; [by rewrite !lookup_insert_eq|].
  rewrite !(lookup_insert_ne _ self p) by done.
  destruct (decide (p = _syrups b)) as [->|Hq];
    [by rewrite !lookup_insert_eq|].
  rewrite !(lookup_insert_ne _ (_syrups b) p) by done.
  rewrite !(lookup_insert_ne _ self p) by done.
  by rewrite !(lookup_insert_ne _ (_syrups b) p) by done.
Qed.

Lemma steps_commute b items c1 c2 a1 a2 :
  attribute c1 = Some a1 → attribute c2 = Some a2 → a1 ≠ a2 →
  steps [c1; c2] b items = steps [c2; c1] b items.
Proof.
  intros A1 A2 Hne. unfold steps.
  destruct c1, c2; simpl in *; try done;
    try (injection A1 as <-; injection A2 as <-; done);
    repeat case_decide; repeat case_match; simplify_eq; reflexivity.
Qed.

(** X14: setter calls on different attributes can be swapped. For two
    calls among [set_base], [set_size], [set_milk], [add_syrup],
    [set_sugar] and [set_iced] that are not the same method, with any
    arguments, valid or not, calling them in either order leaves the same
    heap. *)
Theorem setters_commute h self b items c1 c2 a1 a2 :
  builder_at h self b items →
  attribute c1 = Some a1 → attribute c2 = Some a2 → a1 ≠ a2 →
  run self [c1; c2] h = run self [c2; c1] h.
Proof.
  intros Hat A1 A2 Hne.
  assert (c1 ≠ Build) by (intros ->; done).
  assert (c2 ≠ Build) by (intros ->; done).
  rewrite !(run_two_calls _ _ _ _ _ _ Hat) by done.
  by rewrite (steps_commute b items c1 c2 a1 a2).
Qed.

Lemma setters_commute_witness :
  run 2%positive [SetSugar (Py.VInt 9); AddSyrup "mint"] example_heap
    = run 2%positive [AddSyrup "mint"; SetSugar (Py.VInt 9)] example_heap.
Proof.
  apply (setters_commute example_heap 2%positive example_builder
           ["vanilla"; "caramel"] _ _ "_sugar" "_syrups").
  - exact example_heap_builder.
  - reflexivity.
  - reflexivity.
  - apply (bool_decide_unpack _). vm_compute. exact I.
Defined.

Lemma run_one_call h self b items c :
  builder_at h self b items → c ≠ Build →
  run self [c] h
    = <[self := Builder (step c b items).1]>
        (<[_syrups b := PyList (step c b items).2]> h).
Proof. intros Hat Hc. by apply attempt_heap. Qed.

(** X15: a setter that is accepted replaces what an earlier call of the
    same setter did: for [set_base], [set_size], [set_milk], [set_sugar]
    and [set_iced], if the second of two calls of the same method returns,
    the heap after both is the heap after the second alone, whether the
    first was accepted or refused. *)
Theorem accepted_setter_overrides h self b items c1 c2 a r h' :
  builder_at h self b items →
  attribute c1 = Some a → attribute c2 = Some a → a ≠ "_syrups" →
  perform self c2 h = (Return r, h') →
  run self [c1; c2] h = run self [c2] h.
Proof.
  intros Hat A1 A2 Ha Hret.
  assert (c1 ≠ Build) by (intros ->; done).
  assert (c2 ≠ Build) by (intros ->; done).
  rewrite (run_two_calls _ _ _ _ _ _ Hat), (run_one_call _ _ _ _ _ Hat)
    by done.
  assert (steps [c1; c2] b items = step c2 b items) as ->; [|done].
  unfold steps.
  destruct c1 as [v|v|v|v|v|v| |], c2 as [w|w|w|w|w|w| |];
    simpl in A1, A2; simplify_eq; simpl in Hret |- *.
  - rewrite (set_base_spec _ _ _ _ Hat) in Hret.
    destruct (decide (w ∈ VALID_BASES)); [|done]. by case_decide.
  - rewrite (set_size_spec _ _ _ _ Hat) in Hret.
    destruct (decide (w ∈ VALID_SIZES)); [|done]. by case_decide.
  - rewrite (set_milk_spec _ _ _ _ Hat) in Hret.
    destruct (decide (w ∈ VALID_MILKS)); [|done]. by case_decide.
  - rewrite (set_sugar_spec _ _ _ _ Hat) in Hret.
    destruct (Py.as_int w) as [n|]; [|done].
    destruct (_ || _); [done|].
    destruct (Py.as_int v) as [m|]; [|done]. by destruct (_ || _).
  - rewrite (set_iced_spec _ _ _ _ Hat) in Hret.
    destruct (Py.as_bool w) as [f|]; [|done].
    by destruct (Py.as_bool v).
Qed.

Lemma accepted_setter_overrides_witness :
  run 2%positive [SetMilk "soy"; SetMilk "whole"] example_heap
    = run 2%positive [SetMilk "whole"] example_heap.
Proof.
  apply (accepted_setter_overrides example_heap 2%positive example_builder
           ["vanilla"; "caramel"] _ _ "_milk" 2%positive
           (snd (set_milk 2%positive "whole" example_heap))).
  - exact example_heap_builder.
  - reflexivity.
  - reflexivity.
  - apply (bool_decide_unpack _). vm_compute. exact I.
  - vm_compute. reflexivity.
Defined.

(** ** [clear_extras] again *)

(** X16: [clear_extras] never raises, a second [clear_extras] right after
    the first changes nothing more, and on a builder that has no extras
    (milk "none", no syrups, sugar the integer 0, not iced) it leaves the
    heap exactly as it is. *)
Theorem clear_extras_idempotent h self b items :
  builder_at h self b items →
  (clear_extras self ≫= clear_extras) h = clear_extras self h ∧
  (_milk b = "none" → items = [] → _sugar b = Py.Int 0 → _iced b = false →
   clear_extras self h = (Return self, h)).
Proof.
  intros Hat. pose proof (builder_at_distinct _ _ _ _ Hat) as Hne. split.
  - unfold mbind, M_bind, bind. rewrite (clear_extras_spec _ _ _ _ Hat).
    erewrite clear_extras_spec;
      [|eapply builder_at_store; [by eapply builder_at_store_list|done]].
    simpl. f_equal. apply map_eq. intros p.
    destruct (decide (p = self)) as [->|Hp]; [by rewrite !lookup_insert_eq|].
    destruct (decide (p = _syrups b)) as [->|Hq];
      repeat first [rewrite lookup_insert_eq
                   |rewrite lookup_insert_ne by done]; done.
  - intros Hm -> Hs Hi. rewrite (clear_extras_spec _ _ _ _ Hat).
    destruct Hat as [Hb Hl]. f_equal. rewrite (insert_id _ _ _ Hl).
    apply insert_id. rewrite Hb. destruct b; simpl in *. by subst.
Qed.

Lemma clear_extras_idempotent_witness :
  (clear_extras 2%positive ≫= clear_extras) new_heap
    = clear_extras 2%positive new_heap ∧
  ("none" = "none" → @nil string = [] → Py.Int 0 = Py.Int 0 →
   false = false →
   clear_extras 2%positive new_heap = (Return 2%positive, new_heap)).
Proof.
  apply (clear_extras_idempotent new_heap 2%positive _ [] new_heap_builder).
Defined.

(** ** A boolean as sugar *)

Lemma join_snoc sep first parts last :
  Py.join sep ((first :: parts) ++ [last])
    = Py.join sep (first :: parts) +:+ sep +:+ last.
Proof.
  revert first. induction parts as [|x parts IH]; intros first; [done|].
  change (Py.join sep ((first :: x :: parts) ++ [last]))
    with (first +:+ sep +:+ Py.join sep ((x :: parts) ++ [last])).
  change (Py.join sep (first :: x :: parts))
    with (first +:+ sep +:+ Py.join sep (x :: parts)).
  rewrite IH. by rewrite !append_assoc.
Qed.

Lemma join_last sep parts last :
  parts ≠ [] →
  Py.join sep (parts ++ [last]) = Py.join sep parts +:+ sep +:+ last.
Proof. destruct parts; [done|]. intros _. apply join_snoc. Qed.

Lemma gen_description_sugar (o : CoffeeOrder) :
  0 < Py.int_value (sugar o) →
  ∃ front,
    _gen_description o
      = front +:+ " " +:+ Py.str_int (sugar o) +:+ " tsp sugar".
Proof.
  intros H. unfold _gen_description. cbv zeta.
  rewrite (proj2 (Z.ltb_lt _ _) H).
  rewrite join_last; [by eexists|].
  by destruct (String.eqb (milk o) "none"), (syrups o), (iced o).
Qed.

(** X17: the sugar is rendered with Python's [str] of the stored object.
    After [set_sugar(True)], which is accepted, the order [build] returns
    has the boolean as its sugar and a description that ends with
    " True tsp sugar", not " 1 tsp sugar". *)
Theorem bool_sugar_description h self b items o h' :
  builder_at h self b items →
  build self (attempt self h (SetSugar (Py.VBool true))) = (Return o, h') →
  ∃ ord front,
    h' !! o = Some (Order ord) ∧ sugar ord = Py.Bool true ∧
    description ord = front +:+ " True tsp sugar".
Proof.
  intros Hat E.
  destruct (attempt_step _ _ _ _ (SetSugar (Py.VBool true)) Hat)
    as (Hat'&_&_). simpl in Hat'.
  destruct (build_cases _ _ _ _ Hat')
    as [[e E']|(x&y&bp&sm&mp&_&_&_&_&_&E')]; rewrite E' in E; [done|].
  injection E as <- <-.
  set (p := total_price bp sm mp (length items) (_iced b)).
  destruct (gen_description_sugar
              (mkOrder x y (_milk b) items (Py.Bool true) (_iced b) p ""))
    as [front Hfront]; [done|].
  exists (built_order (with_sugar (Py.Bool true) b) items x y bp sm mp), front.
  split_and!; [apply lookup_insert_eq|done|exact Hfront].
Qed.

Lemma bool_sugar_description_witness :
  ∃ ord front,
    snd (build 2%positive
           (attempt 2%positive example_heap (SetSugar (Py.VBool true))))
      !! 3%positive = Some (Order ord) ∧
    sugar ord = Py.Bool true ∧
    description ord = front +:+ " True tsp sugar".
Proof.
  apply (bool_sugar_description example_heap 2%positive example_builder
           ["vanilla"; "caramel"]).
  - exact example_heap_builder.
  - vm_compute. reflexivity.
Defined.

(** ** What the price does not depend on *)

(** X18: sugar is free and the names of the syrups do not matter. If two
    builders agree on base, size, milk, iced flag and number of syrups, the
    orders they build have the same price, whatever their sugar and
    whichever syrups they hold. *)
Theorem price_ignores_sugar_and_names
  h1 self1 b1 items1 o1 h1' h2 self2 b2 items2 o2 h2' :
  builder_at h1 self1 b1 items1 → builder_at h2 self2 b2 items2 →
  _base b1 = _base b2 → _size b1 = _size b2 → _milk b1 = _milk b2 →
  _iced b1 = _iced b2 → length items1 = length items2 →
  build self1 h1 = (Return o1, h1') → build self2 h2 = (Return o2, h2') →
  ∃ ord1 ord2,
    h1' !! o1 = Some (Order ord1) ∧ h2' !! o2 = Some (Order ord2) ∧
    price ord1 = price ord2.
Proof.
  intros Hat1 Hat2 Eb Es Em Ei El E1 E2.
  destruct (build_cases _ _ _ _ Hat1)
    as [[e E']|(x&y&bp&sm&mp&B1&S1&L1&L2&L3&E')]; rewrite E' in E1; [done|].
  destruct (build_cases _ _ _ _ Hat2)
    as [[e E'']|(x'&y'&bp'&sm'&mp'&B2&S2&L1'&L2'&L3'&E'')];
    rewrite E'' in E2; [done|].
  injection E1 as <- <-. injection E2 as <- <-.
  rewrite Eb, B2 in B1. injection B1 as <-.
  rewrite Es, S2 in S1. injection S1 as <-.
  rewrite Em, L3' in L3. injection L3 as <-.
  rewrite L1' in L1. injection L1 as <-.
  rewrite L2' in L2. injection L2 as <-.
  eexists _, _. split_and!; [apply lookup_insert_eq..|].
  simpl. by rewrite El, Ei.
Qed.

Lemma price_ignores_sugar_and_names_witness :
  ∃ ord1 ord2,
    built_heap !! 3%positive = Some (Order ord1) ∧
    snd (build 2%positive
           (run 2%positive
              [ClearExtras; SetMilk "oat"; AddSyrup "mint";
               AddSyrup "cocoa"; SetSugar (Py.VInt 5);
               SetIced (Py.VBool true)] example_heap))
      !! 3%positive = Some (Order ord2) ∧
    price ord1 = price ord2.
Proof.
  apply (price_ignores_sugar_and_names
           example_heap 2%positive example_builder ["vanilla"; "caramel"]
           3%positive built_heap
           (run 2%positive
              [ClearExtras; SetMilk "oat"; AddSyrup "mint";
               AddSyrup "cocoa"; SetSugar (Py.VInt 5);
               SetIced (Py.VBool true)] example_heap)
           2%positive
           (mkBuilder (Some "latte") (Some "medium") "oat" 1%positive
              (Py.Int 5) true)
           ["mint"; "cocoa"] 3%positive).
  - exact example_heap_builder.
  - split; vm_compute; reflexivity.
  - reflexivity.
  - reflexivity.
  - reflexivity.
  - reflexivity.
  - reflexivity.
  - vm_compute. reflexivity.
  - vm_compute. reflexivity.
Defined.
